(** * bonusCalc: the progressive bonus calculator

    A shallow embedding of the two variants of the calculator found in the
    repository:

    - the fixed-threshold variant (module [Fixed]), whose tier table is the
      constant [INITIAL_TIER_CONFIG] with three thresholds and three rates;
    - the salary-relative variant (module [SalaryRelative], from
      [src/App.js]), whose thresholds are multiples of a monthly salary and
      whose rate table has four rates per scheme.

    Both variants share, verbatim, the function [calculateProgressiveBonus]
    (module [Bonus]).

    ** Number model

    A JavaScript number is modelled by the type [number]: either [NaN] or a
    finite value carried as an exact rational.  The arithmetic operators
    propagate [NaN] and every comparison with [NaN] is false, as in
    JavaScript.  Rounding to binary64, the two infinities and the sign of
    zero are not part of [number]: the amounts, salaries and rates of the
    program are read as the real numbers they stand for.  What is proved on
    [number] is therefore which operations the program performs, in which
    order and on which operands, which branch it takes and what it stores;
    an equation between two different ways of computing an amount is not
    claimed of the program, whose results carry the rounding of each
    operation.  Module [Binary64] re-runs the calculator and the derivation
    of the thresholds on IEEE 754 binary64 floats, for the numeric scenarios
    and for the places where the rounding shows.

    ** What is modelled

    The calculator, the derivation of the thresholds from the salary, the
    coercion of the text fields, the handlers of the rate, salary and
    performance inputs, the computation of the results and of the
    recommendation banner, the state each variant keeps, as a state
    machine over the user's events, and, for [src/App.js], the copy of the
    state kept in local storage with the reset dialog (module
    [Persistence]).  Rendering and currency formatting are not. *)

From Stdlib Require Import PrimFloat.
From Stdlib Require Import Arith ZArith QArith Qminmax Qabs Lqa Lia.
From Stdlib Require Import List String Ascii Bool.
Import ListNotations.

Set Implicit Arguments.

Open Scope Q_scope.

(* ================================================================== *)
(** * JavaScript values used by the program *)
(* ================================================================== *)

Declare Scope js_scope.
Delimit Scope js_scope with js.

(** A number: [NaN], or a finite value. *)
Inductive number : Type :=
| NaN : number
| Fin (q : Q) : number.

Bind Scope js_scope with number.

Coercion Fin : Q >-> number.

Definition number_add (a b : number) : number :=
  match a, b with
  | Fin x, Fin y => Fin (x + y)
  | _, _ => NaN
  end.

Definition number_sub (a b : number) : number :=
  match a, b with
  | Fin x, Fin y => Fin (x - y)
  | _, _ => NaN
  end.

Definition number_mul (a b : number) : number :=
  match a, b with
  | Fin x, Fin y => Fin (x * y)
  | _, _ => NaN
  end.

(** Division.  A zero divisor gives a non-finite result in JavaScript, which
    [number] does not carry; the program only ever divides by the literal
    [100]. *)
Definition number_div (a b : number) : number :=
  match a, b with
  | Fin x, Fin y => if Qeq_bool y 0 then NaN else Fin (x / y)
  | _, _ => NaN
  end.

(** [a <= b], [a < b], [a >= b], [a > b]: false as soon as one side is [NaN]. *)
Definition number_leb (a b : number) : bool :=
  match a, b with
  | Fin x, Fin y => Qle_bool x y
  | _, _ => false
  end.

Definition number_ltb (a b : number) : bool :=
  match a, b with
  | Fin x, Fin y => negb (Qle_bool y x)
  | _, _ => false
  end.

Definition number_geb (a b : number) : bool := number_leb b a.
Definition number_gtb (a b : number) : bool := number_ltb b a.

(** [a === b] on numbers. *)
Definition number_eqb (a b : number) : bool :=
  match a, b with
  | Fin x, Fin y => Qeq_bool x y
  | _, _ => false
  end.

Infix "+" := number_add : js_scope.
Infix "-" := number_sub : js_scope.
Infix "*" := number_mul : js_scope.
Infix "/" := number_div : js_scope.
Infix "<=?" := number_leb (at level 70, no associativity) : js_scope.
Infix "<?" := number_ltb (at level 70, no associativity) : js_scope.
Infix ">=?" := number_geb (at level 70, no associativity) : js_scope.
Infix ">?" := number_gtb (at level 70, no associativity) : js_scope.
Infix "===" := number_eqb (at level 70, no associativity) : js_scope.

(** [Math.min(a, b)] and [Math.abs(a)]. *)
Definition Math_min (a b : number) : number :=
  match a, b with
  | Fin x, Fin y => Fin (Qmin x y)
  | _, _ => NaN
  end.

Definition Math_abs (a : number) : number :=
  match a with
  | Fin x => Fin (Qabs x)
  | NaN => NaN
  end.

Definition isNaN (a : number) : bool :=
  match a with
  | NaN => true
  | Fin _ => false
  end.

(** Truthiness of a number: [NaN] and zero are falsy. *)
Definition truthy (a : number) : bool :=
  match a with
  | NaN => false
  | Fin x => negb (Qeq_bool x 0)
  end.

(** [a || 0]. *)
Definition or_zero (a : number) : number :=
  if truthy a then a else Fin 0.

(** Equality of numbers as values: the rational inside [Fin] is compared by
    [Qeq], so that [Fin (1#2)] and [Fin (2#4)] are the same number. *)
Definition number_eq (a b : number) : Prop :=
  match a, b with
  | NaN, NaN => True
  | Fin x, Fin y => x == y
  | _, _ => False
  end.

Infix "≡" := number_eq (at level 70, no associativity) : js_scope.

(** An array of numbers.  Reading past the end gives [undefined], which every
    arithmetic operator turns into [NaN]; the program only uses such reads as
    operands of [*], so the read is modelled as returning [NaN]. *)
Definition array := list number.

Definition array_get (a : array) (i : nat) : number := nth i a NaN.

(** [a[i] = v] on a copy of [a]: inside the array the element is replaced;
    past the end the array grows, the skipped positions being holes (which
    read as [undefined]). *)
Fixpoint array_set (a : array) (i : nat) (v : number) : array :=
  match a, i with
  | [], O => [v]
  | [], S i' => NaN :: array_set [] i' v
  | _ :: rest, O => v :: rest
  | x :: rest, S i' => x :: array_set rest i' v
  end.

(** The values held by the text fields and by the stored performance data:
    strings typed by the user, or numbers (the built-in examples, the default
    salary). *)
Inductive value : Type :=
| VString (s : string)
| VNumber (n : number).

(** [v !== ''] *)
Definition not_empty_string (v : value) : bool :=
  match v with
  | VString s => negb (String.eqb s "")
  | VNumber _ => true
  end.

(** The two tier tables are the properties ['monthly'] and ['quarterly'] of
    one object; [scheme] is the key, [by_scheme] the object. *)
Inductive scheme : Type := Monthly | Quarterly.

Record by_scheme (A : Type) : Type := {
  monthly : A;
  quarterly : A
}.

(** [o[type]] *)
Definition lookup {A} (o : by_scheme A) (type : scheme) : A :=
  match type with
  | Monthly => monthly o
  | Quarterly => quarterly o
  end.

(** [{ ...o, [type]: v }] *)
Definition update {A} (o : by_scheme A) (type : scheme) (v : A) : by_scheme A :=
  match type with
  | Monthly => {| monthly := v; quarterly := quarterly o |}
  | Quarterly => {| monthly := monthly o; quarterly := v |}
  end.

(* ================================================================== *)
(** * The calculator (identical in both variants) *)
(* ================================================================== *)

Module Bonus.

Record tier : Type := {
  thresholds : array;
  rates : array
}.

Definition config := by_scheme tier.

(** The variables of the tier walk. *)
Record walk : Type := {
  bonus : number;
  remainingPerf : number;
  lowerBound : number
}.

(** The [for] loop: [n] is the number of iterations left,
    [thresholds.length - i]. *)
Fixpoint tierLoop (n i : nat) (thresholds rates : array) (w : walk) : walk :=
  match n with
  | O => w
  | S n' =>
      let upperBound := array_get thresholds i in
      let rate := array_get rates i in
      if (remainingPerf w <=? 0)%js then w
      else
        let tierRange := (upperBound - lowerBound w)%js in
        let amountInTier := Math_min (remainingPerf w) tierRange in
        tierLoop n' (S i) thresholds rates
          {| bonus := (bonus w + amountInTier * rate)%js;
             remainingPerf := (remainingPerf w - amountInTier)%js;
             lowerBound := upperBound |}
  end.

(** [calculateProgressiveBonus(performance, type = 'monthly', config)];
    every call site passes [type]. *)
Definition calculateProgressiveBonus
    (performance : number) (type : scheme) (config : config) : number :=
  let thresholds := thresholds (lookup config type) in
  let rates := rates (lookup config type) in
  let w := tierLoop (List.length thresholds) 0 thresholds rates
             {| bonus := 0; remainingPerf := performance; lowerBound := 0 |} in
  if (remainingPerf w >? 0)%js
  then (bonus w + remainingPerf w * array_get rates (List.length rates - 1))%js
  else bonus w.

End Bonus.

Import Bonus.

(* ================================================================== *)
(** * Coercion of field values to numbers *)
(* ================================================================== *)

(** [Number(v)] and [parseFloat(s)] are built-ins of the language, not code
    of the program: their reading of a string is a parameter of the
    development, a function from strings to [number].  The strings come from
    inputs of type [number], which deliver the empty string or a decimal
    literal; that a literal too large for binary64 is read as an infinity
    is, like rounding, outside [number].  The only fact about the built-ins
    that is ever assumed (and then stated as a hypothesis) is
    [Number('') = 0]. *)
Section Coercion.

Variable StringToNumber : string -> number.

(** [Number(v)]: the identity on numbers. *)
Definition Number (v : value) : number :=
  match v with
  | VString s => StringToNumber s
  | VNumber n => n
  end.

(** [Number(v) || 0], the coercion applied to every performance field and
    to the salary field. *)
Definition NumberOrZero (v : value) : number := or_zero (Number v).

End Coercion.

(** The three performance fields of a calculator panel. *)
Record perf : Type := {
  perf1 : value;
  perf2 : value;
  perf3 : value
}.

(** The object stored by [setResults]:
    [{ monthly: { bonus1, bonus2, bonus3, total },
       quarterly: { totalPerf, total } }]. *)
Record results : Type := {
  monthly_bonus1 : number;
  monthly_bonus2 : number;
  monthly_bonus3 : number;
  monthly_total : number;
  quarterly_totalPerf : number;
  quarterly_total : number
}.

(** The banner computed by [recommendation].  Its [text] is one of three
    fixed sentences; the first two embed [formatCurrency] of an amount, kept
    here as the amount itself. *)
Inductive advice : Type :=
| ChooseQuarterly (extra : number)
| ChooseMonthly (extra : number)
| SameResult.

Record banner : Type := {
  style : string;
  text : advice
}.

(* ================================================================== *)
(** * The fixed-threshold variant *)
(* ================================================================== *)

Module Fixed.

Definition INITIAL_TIER_CONFIG : config :=
  {| monthly := {| thresholds := [Fin 120000; Fin 200000; Fin 400000];
                   rates := [Fin 0.03; Fin 0.05; Fin 0.10] |};
     quarterly := {| thresholds := [Fin 360000; Fin 600000; Fin 1200000];
                     rates := [Fin 0.03; Fin 0.05; Fin 0.10] |} |}.

(** ** TierTable *)

(** A row of the table: the rate it shows and the index its input edits
    (the label is display text). *)
Record tierRow : Type := {
  rate : number;
  index : nat
}.

Definition tierRows (config : tier) : list tierRow :=
  let rates := rates config in
  [ {| rate := array_get rates 0; index := 0 |};
    {| rate := array_get rates 1; index := 1 |};
    {| rate := array_get rates 2; index := 2 |};
    {| rate := array_get rates 2; index := 2 |} ].

(** [disabled={i === tierRows.length - 1}] *)
Definition disabled (config : tier) (i : nat) : bool :=
  Nat.eqb i (List.length (tierRows config) - 1).

Section Handlers.

Variable StringToNumber : string -> number.
Variable parseFloat : string -> number.

(** [handleInputChange(index, value)] of a table of the given [type];
    [onRateChange] is a state update. *)
Definition handleInputChange {S : Type}
    (onRateChange : scheme -> nat -> number -> S -> S)
    (type : scheme) (index : nat) (value : string) : S -> S :=
  let newRate := parseFloat value in
  if negb (isNaN newRate) && (newRate >=? 0)%js
  then onRateChange type index (newRate / 100)%js
  else fun s => s.

(** ** CalculatorPanel *)

(** [calculateResults()]: the value it passes to [setResults].  It is called
    by the effect below and, directly, by the manual-calculation button of
    the custom tab. *)
Definition calculateResults (initialPerf : perf) (tierConfig : config) : results :=
  let p1 := NumberOrZero StringToNumber (perf1 initialPerf) in
  let p2 := NumberOrZero StringToNumber (perf2 initialPerf) in
  let p3 := NumberOrZero StringToNumber (perf3 initialPerf) in
  let bonus1 := calculateProgressiveBonus p1 Monthly tierConfig in
  let bonus2 := calculateProgressiveBonus p2 Monthly tierConfig in
  let bonus3 := calculateProgressiveBonus p3 Monthly tierConfig in
  let totalMonthlyBonus := (bonus1 + bonus2 + bonus3)%js in
  let totalQuarterlyPerf := (p1 + p2 + p3)%js in
  let quarterlyBonus := calculateProgressiveBonus totalQuarterlyPerf Quarterly tierConfig in
  {| monthly_bonus1 := bonus1;
     monthly_bonus2 := bonus2;
     monthly_bonus3 := bonus3;
     monthly_total := totalMonthlyBonus;
     quarterly_totalPerf := totalQuarterlyPerf;
     quarterly_total := quarterlyBonus |}.

(** The effect that recomputes [results] when the fields, the tab or the
    configuration change: the new value of [results]. *)
Definition recalculate (initialPerf : perf) (isCustom : bool) (tierConfig : config)
  : option results :=
  if not_empty_string (perf1 initialPerf)
     || not_empty_string (perf2 initialPerf)
     || not_empty_string (perf3 initialPerf)
     || negb isCustom
  then Some (calculateResults initialPerf tierConfig)
  else None.

Definition recommendation (results : option results) : option banner :=
  match results with
  | None => None
  | Some results =>
      let diff := (quarterly_total results - monthly_total results)%js in
      if (diff >? 0)%js then
        Some {| style := "bg-green-100 border-green-500 text-green-800";
                text := ChooseQuarterly diff |}
      else if (diff <? 0)%js then
        Some {| style := "bg-orange-100 border-orange-500 text-orange-800";
                text := ChooseMonthly (Math_abs diff) |}
      else
        Some {| style := "bg-blue-100 border-blue-500 text-blue-800";
                text := SameResult |}
  end.

(** ** App *)

Inductive tab : Type := Example1 | Example2 | Example3 | Custom.

(** The object held by [perfData]: one triple of fields per tab. *)
Record perfTable : Type := {
  example1 : perf;
  example2 : perf;
  example3 : perf;
  custom : perf
}.

(** [perfData[activeTab]] *)
Definition perfOf (d : perfTable) (t : tab) : perf :=
  match t with
  | Example1 => example1 d
  | Example2 => example2 d
  | Example3 => example3 d
  | Custom => custom d
  end.

Record app : Type := {
  activeTab : tab;
  tierConfig : config;
  perfData : perfTable
}.

Definition initialApp : app :=
  {| activeTab := Example1;
     tierConfig := INITIAL_TIER_CONFIG;
     perfData :=
       {| example1 := {| perf1 := VNumber 150000; perf2 := VNumber 150000; perf3 := VNumber 150000 |};
          example2 := {| perf1 := VNumber 210000; perf2 := VNumber 210000; perf3 := VNumber 210000 |};
          example3 := {| perf1 := VNumber 410000; perf2 := VNumber 410000; perf3 := VNumber 410000 |};
          custom := {| perf1 := VString ""; perf2 := VString ""; perf3 := VString "" |} |} |}.

Definition handleRateChange (type : scheme) (index : nat) (newRate : number)
    (prevConfig : config) : config :=
  let newRates := array_set (rates (lookup prevConfig type)) index newRate in
  update prevConfig type
    {| thresholds := thresholds (lookup prevConfig type); rates := newRates |}.

(** [handlePerfChange(index, value)]: the panel calls it with index 0, 1 or
    2; any other index would write a property that is never read. *)
Definition handlePerfChange (index : nat) (value : string) (prevData : perfTable)
  : perfTable :=
  let c := custom prevData in
  let c' :=
    match index with
    | 0%nat => {| perf1 := VString value; perf2 := perf2 c; perf3 := perf3 c |}
    | 1%nat => {| perf1 := perf1 c; perf2 := VString value; perf3 := perf3 c |}
    | 2%nat => {| perf1 := perf1 c; perf2 := perf2 c; perf3 := VString value |}
    | _ => c
    end in
  {| example1 := example1 prevData;
     example2 := example2 prevData;
     example3 := example3 prevData;
     custom := c' |}.

Definition isCustom (a : app) : bool :=
  match activeTab a with
  | Custom => true
  | _ => false
  end.

(** What the user can do: type in the rate input of row [row] of a table,
    type in performance field [index] of the panel, select a tab. *)
Inductive event : Type :=
| RateInput (type : scheme) (row : nat) (value : string)
| PerfInput (index : nat) (value : string)
| SelectTab (t : tab).

Definition setTierConfig (f : config -> config) (a : app) : app :=
  {| activeTab := activeTab a; tierConfig := f (tierConfig a); perfData := perfData a |}.

Definition setPerfData (f : perfTable -> perfTable) (a : app) : app :=
  {| activeTab := activeTab a; tierConfig := tierConfig a; perfData := f (perfData a) |}.

Definition setActiveTab (t : tab) (a : app) : app :=
  {| activeTab := t; tierConfig := tierConfig a; perfData := perfData a |}.

(** One event.  A disabled input raises no event (the last row of a table;
    the performance fields outside the custom tab). *)
Definition step (a : app) (e : event) : app :=
  match e with
  | RateInput type row value =>
      let table := lookup (tierConfig a) type in
      match nth_error (tierRows table) row with
      | Some r =>
          if disabled table row then a
          else handleInputChange
                 (fun t i r => setTierConfig (handleRateChange t i r))
                 type (index r) value a
      | None => a
      end
  | PerfInput index value =>
      if isCustom a then setPerfData (handlePerfChange index value) a else a
  | SelectTab t => setActiveTab t a
  end.

Definition run (a : app) (events : list event) : app := fold_left step events a.

(** The results shown by the panel of the active tab after the effect ran. *)
Definition shown (a : app) : option results :=
  recalculate (perfOf (perfData a) (activeTab a)) (isCustom a) (tierConfig a).

End Handlers.

End Fixed.

(* ================================================================== *)
(** * The salary-relative variant ([src/App.js]) *)
(* ================================================================== *)

Module SalaryRelative.

Definition TIER_MULTIPLIERS : array := [Fin 3; Fin 5; Fin 10].

Definition INITIAL_RATES : by_scheme array :=
  {| monthly := [Fin 0.03; Fin 0.05; Fin 0.10; Fin 0.15];
     quarterly := [Fin 0.03; Fin 0.05; Fin 0.10; Fin 0.15] |}.

Definition INITIAL_PERF_DATA : perf :=
  {| perf1 := VString ""; perf2 := VString ""; perf3 := VString "" |}.

(** ** TierTable *)

Record tierRow : Type := {
  rate : number;
  index : nat
}.

Definition tierRows (rates : array) : list tierRow :=
  [ {| rate := array_get rates 0; index := 0 |};
    {| rate := array_get rates 1; index := 1 |};
    {| rate := array_get rates 2; index := 2 |};
    {| rate := array_get rates 3; index := 3 |} ].

Section Handlers.

Variable StringToNumber : string -> number.
Variable parseFloat : string -> number.

Definition handleInputChange {S : Type}
    (onRateChange : scheme -> nat -> number -> S -> S)
    (type : scheme) (index : nat) (value : string) : S -> S :=
  let newRate := parseFloat value in
  if negb (isNaN newRate) && (newRate >=? 0)%js
  then onRateChange type index (newRate / 100)%js
  else fun s => s.

(** ** CalculatorPanel *)

(** The effect that recomputes [results] when the fields or the
    configuration change: the new value of [results]. *)
Definition recalculate (perfData : perf) (tierConfig : config) : option results :=
  let p1 := NumberOrZero StringToNumber (perf1 perfData) in
  let p2 := NumberOrZero StringToNumber (perf2 perfData) in
  let p3 := NumberOrZero StringToNumber (perf3 perfData) in
  if (p1 === 0)%js && (p2 === 0)%js && (p3 === 0)%js then None
  else
    let bonus1 := calculateProgressiveBonus p1 Monthly tierConfig in
    let bonus2 := calculateProgressiveBonus p2 Monthly tierConfig in
    let bonus3 := calculateProgressiveBonus p3 Monthly tierConfig in
    let totalMonthlyBonus := (bonus1 + bonus2 + bonus3)%js in
    let totalQuarterlyPerf := (p1 + p2 + p3)%js in
    let quarterlyBonus := calculateProgressiveBonus totalQuarterlyPerf Quarterly tierConfig in
    Some {| monthly_bonus1 := bonus1;
            monthly_bonus2 := bonus2;
            monthly_bonus3 := bonus3;
            monthly_total := totalMonthlyBonus;
            quarterly_totalPerf := totalQuarterlyPerf;
            quarterly_total := quarterlyBonus |}.

Definition recommendation (results : option results) : option banner :=
  match results with
  | None => None
  | Some results =>
      let diff := (quarterly_total results - monthly_total results)%js in
      if (diff >? 0)%js then
        Some {| style := "bg-green-100 border-green-500 text-green-800";
                text := ChooseQuarterly diff |}
      else if (diff <? 0)%js then
        Some {| style := "bg-orange-100 border-orange-500 text-orange-800";
                text := ChooseMonthly (Math_abs diff) |}
      else
        Some {| style := "bg-blue-100 border-blue-500 text-blue-800";
                text := SameResult |}
  end.

(** ** App *)

(** The three stored values.  A fresh session (nothing in local storage, or
    after the reset) starts from the defaults. *)
Record app : Type := {
  monthlySalary : value;
  tierRates : by_scheme array;
  perfData : perf
}.

Definition initialApp : app :=
  {| monthlySalary := VNumber 40000;
     tierRates := INITIAL_RATES;
     perfData := INITIAL_PERF_DATA |}.

Definition dynamicTierConfig (monthlySalary : value) (tierRates : by_scheme array)
  : config :=
  let salary := NumberOrZero StringToNumber monthlySalary in
  let monthlyThresholds := map (fun m => (m * salary)%js) TIER_MULTIPLIERS in
  let quarterlyThresholds := map (fun t => (t * 3)%js) monthlyThresholds in
  {| monthly := {| thresholds := monthlyThresholds; rates := monthly tierRates |};
     quarterly := {| thresholds := quarterlyThresholds; rates := quarterly tierRates |} |}.

Definition handleRateChange (type : scheme) (index : nat) (newRate : number)
    (prev : by_scheme array) : by_scheme array :=
  let newRates := array_set (lookup prev type) index newRate in
  update prev type newRates.

(** The property names ['perf1'], ['perf2'], ['perf3']. *)
Inductive perfField : Type := Perf1 | Perf2 | Perf3.

Definition handlePerfChange (field : perfField) (value : string) (prev : perf) : perf :=
  match field with
  | Perf1 => {| perf1 := VString value; perf2 := perf2 prev; perf3 := perf3 prev |}
  | Perf2 => {| perf1 := perf1 prev; perf2 := VString value; perf3 := perf3 prev |}
  | Perf3 => {| perf1 := perf1 prev; perf2 := perf2 prev; perf3 := VString value |}
  end.

Definition setMonthlySalary (v : value) (a : app) : app :=
  {| monthlySalary := v; tierRates := tierRates a; perfData := perfData a |}.

Definition setTierRates (f : by_scheme array -> by_scheme array) (a : app) : app :=
  {| monthlySalary := monthlySalary a; tierRates := f (tierRates a); perfData := perfData a |}.

Definition setPerfData (f : perf -> perf) (a : app) : app :=
  {| monthlySalary := monthlySalary a; tierRates := tierRates a; perfData := f (perfData a) |}.

Definition handleSalaryChange (newSalary : string) : app -> app :=
  setMonthlySalary (VString newSalary).

(** What the user can do: type in the salary field, in the rate input of
    row [row] of a table, in a performance field, or confirm the reset
    (which clears the stored values and reloads the page). *)
Inductive event : Type :=
| SalaryInput (value : string)
| RateInput (type : scheme) (row : nat) (value : string)
| PerfInput (field : perfField) (value : string)
| ConfirmReset.

Definition step (a : app) (e : event) : app :=
  match e with
  | SalaryInput value => handleSalaryChange value a
  | RateInput type row value =>
      match nth_error (tierRows (lookup (tierRates a) type)) row with
      | Some r =>
          handleInputChange
            (fun t i r => setTierRates (handleRateChange t i r))
            type (index r) value a
      | None => a
      end
  | PerfInput field value => setPerfData (handlePerfChange field value) a
  | ConfirmReset => initialApp
  end.

Definition run (a : app) (events : list event) : app := fold_left step events a.

(** The configuration handed to the panel, and the results it shows. *)
Definition tierConfig (a : app) : config :=
  dynamicTierConfig (monthlySalary a) (tierRates a).

Definition shown (a : app) : option results :=
  recalculate (perfData a) (tierConfig a).

End Handlers.

End SalaryRelative.

(* ================================================================== *)
(** * The calculator on binary64 floats *)
(* ================================================================== *)

(** The same tier walk over IEEE 754 binary64 values, with the rounding of
    every operation, used to run the numeric scenarios. *)
Module Binary64.

Import PrimFloat.

Local Open Scope float_scope.
Local Set Warnings "-inexact-float".

(** [Math.min]: [NaN] if an operand is [NaN]; of two zeros, the negative
    one. *)
Definition Math_min (a b : float) : float :=
  if is_nan a || is_nan b then nan
  else if a <? b then a
  else if b <? a then b
  else if get_sign a then a else b.

Definition array_get (a : list float) (i : nat) : float := nth i a nan.

Record tier : Type := {
  thresholds : list float;
  rates : list float
}.

Record walk : Type := {
  bonus : float;
  remainingPerf : float;
  lowerBound : float
}.

Fixpoint tierLoop (n i : nat) (thresholds rates : list float) (w : walk) : walk :=
  match n with
  | O => w
  | S n' =>
      let upperBound := array_get thresholds i in
      let rate := array_get rates i in
      if remainingPerf w <=? 0 then w
      else
        let tierRange := upperBound - lowerBound w in
        let amountInTier := Math_min (remainingPerf w) tierRange in
        tierLoop n' (S i) thresholds rates
          {| bonus := bonus w + amountInTier * rate;
             remainingPerf := remainingPerf w - amountInTier;
             lowerBound := upperBound |}
  end.

Definition calculateProgressiveBonus
    (performance : float) (type : scheme) (config : by_scheme tier) : float :=
  let thresholds := thresholds (lookup config type) in
  let rates := rates (lookup config type) in
  let w := tierLoop (List.length thresholds) 0 thresholds rates
             {| bonus := 0; remainingPerf := performance; lowerBound := 0 |} in
  if 0 <? remainingPerf w
  then bonus w + remainingPerf w * array_get rates (List.length rates - 1)
  else bonus w.

(** [INITIAL_TIER_CONFIG] of the fixed-threshold variant. *)
Definition INITIAL_TIER_CONFIG : by_scheme tier :=
  {| monthly := {| thresholds := [120000; 200000; 400000];
                   rates := [0.03; 0.05; 0.10] |};
     quarterly := {| thresholds := [360000; 600000; 1200000];
                     rates := [0.03; 0.05; 0.10] |} |}.

(** The salary-relative variant: [TIER_MULTIPLIERS], [INITIAL_RATES] and the
    configuration [dynamicTierConfig] derives; [salary] is the number the
    salary field has been coerced to. *)
Definition TIER_MULTIPLIERS : list float := [3; 5; 10].

Definition INITIAL_RATES : by_scheme (list float) :=
  {| monthly := [0.03; 0.05; 0.10; 0.15];
     quarterly := [0.03; 0.05; 0.10; 0.15] |}.

Definition dynamicTierConfig (salary : float) (tierRates : by_scheme (list float))
  : by_scheme tier :=
  let monthlyThresholds := map (fun m => m * salary) TIER_MULTIPLIERS in
  let quarterlyThresholds := map (fun t => t * 3) monthlyThresholds in
  {| monthly := {| thresholds := monthlyThresholds; rates := monthly tierRates |};
     quarterly := {| thresholds := quarterlyThresholds; rates := quarterly tierRates |} |}.

(** The two totals the panels compare, [totalMonthlyBonus] and
    [quarterlyBonus], for three performances that are numbers. *)
Definition totals (p1 p2 p3 : float) (tierConfig : by_scheme tier) : float * float :=
  let bonus1 := calculateProgressiveBonus p1 Monthly tierConfig in
  let bonus2 := calculateProgressiveBonus p2 Monthly tierConfig in
  let bonus3 := calculateProgressiveBonus p3 Monthly tierConfig in
  let totalMonthlyBonus := bonus1 + bonus2 + bonus3 in
  let totalQuarterlyPerf := p1 + p2 + p3 in
  let quarterlyBonus := calculateProgressiveBonus totalQuarterlyPerf Quarterly tierConfig in
  (totalMonthlyBonus, quarterlyBonus).

End Binary64.

(* ================================================================== *)
(** * Auxiliary definitions for the statements *)
(* ================================================================== *)

(** ** The tier walk on finite values

    When every number involved is finite the walk never meets [NaN]; it is
    then the following function on rationals (lemma [tierLoop_finite]). *)
Fixpoint tierWalk (thresholds rates : list Q) (bonus remaining lower : Q) : Q * Q :=
  match thresholds, rates with
  | upper :: thresholds', rate :: rates' =>
      if Qle_bool remaining 0 then (bonus, remaining)
      else
        let amount := Qmin remaining (upper - lower) in
        tierWalk thresholds' rates' (bonus + amount * rate) (remaining - amount) upper
  | _, _ => (bonus, remaining)
  end.

(** The value returned after the loop, from the pair left by the walk. *)
Definition finish (w : Q * Q) (topRate : Q) : Q :=
  if Qle_bool (snd w) 0 then fst w else fst w + snd w * topRate.

Definition progressiveBonus (performance : Q) (thresholds rates : list Q) : Q :=
  finish (tierWalk thresholds rates 0 performance 0) (last rates 0).

(** The bonus earned by filling every bounded tier: the sum of
    [(upper - lower) * rate] over the tiers. *)
Fixpoint tiersTotal (lower : Q) (thresholds rates : list Q) : Q :=
  match thresholds, rates with
  | upper :: thresholds', rate :: rates' =>
      (upper - lower) * rate + tiersTotal upper thresholds' rates'
  | _, _ => 0
  end.

(** A tier table whose entries are the finite values [ts] and [rs]. *)
Definition tier_of (t : tier) (ts rs : list Q) : Prop :=
  thresholds t = map Fin ts /\ rates t = map Fin rs.

(** Thresholds that never decrease, starting from [lower]. *)
Fixpoint ascending (lower : Q) (ts : list Q) : Prop :=
  match ts with
  | [] => True
  | t :: ts' => lower <= t /\ ascending t ts'
  end.

(** The first threshold, if any, is at least [lower]. *)
Definition starts_at_or_above (lower : Q) (ts : list Q) : Prop :=
  match ts with
  | [] => True
  | t :: _ => lower <= t
  end.

(** Thresholds that strictly increase. *)
Fixpoint strictly_increasing (ts : list Q) : Prop :=
  match ts with
  | [] => True
  | t :: ts' =>
      match ts' with
      | [] => True
      | t' :: _ => t < t'
      end /\ strictly_increasing ts'
  end.

(** A configuration the calculator can walk without meeting [NaN]: finite
    entries, and a rate for every threshold. *)
Definition usable_tier (t : tier) : Prop :=
  exists ts rs, tier_of t ts rs /\ (List.length ts <= List.length rs)%nat /\ rs <> [].

Definition usable (c : config) : Prop :=
  usable_tier (monthly c) /\ usable_tier (quarterly c).

(** A rate that is a number and is not negative. *)
Definition valid_rate (r : number) : Prop := (r >=? 0)%js = true.

(** What every reachable state of the fixed-threshold variant satisfies:
    the thresholds are the initial ones and each scheme has three rates,
    all valid. *)
Definition fixed_invariant (c : config) : Prop :=
  forall type : scheme,
    thresholds (lookup c type) = thresholds (lookup Fixed.INITIAL_TIER_CONFIG type)
    /\ List.length (rates (lookup c type)) = 3%nat
    /\ Forall valid_rate (rates (lookup c type)).

(** What every reachable state of the salary-relative variant satisfies:
    each scheme has four rates, all valid. *)
Definition rates_invariant (t : by_scheme array) : Prop :=
  forall type : scheme,
    List.length (lookup t type) = 4%nat /\ Forall valid_rate (lookup t type).

(** ** Sample readings of text

    Two readings of text that instantiate the parameters [StringToNumber]
    and [parseFloat] in the examples.  They read an optional minus sign
    followed by decimal digits as that integer, the empty string as [0]
    ([integerToNumber]) or [NaN] ([integerParseFloat]), and any other string
    as [NaN].  The examples only use strings that [Number] and [parseFloat]
    read in the same way: integers, the empty string, and strings with no
    numeric prefix or with a non-numeric tail for [Number]. *)
Definition digit (c : ascii) : option Z :=
  let n := nat_of_ascii c in
  if (48 <=? n)%nat && (n <=? 57)%nat then Some (Z.of_nat (n - 48)) else None.

Fixpoint readDigits (s : string) (acc : Z) : option Z :=
  match s with
  | EmptyString => Some acc
  | String c rest =>
      match digit c with
      | Some d => readDigits rest (10 * acc + d)%Z
      | None => None
      end
  end.

Definition readInteger (s : string) : option Z :=
  match s with
  | EmptyString => None
  | String "-" EmptyString => None
  | String "-" rest => option_map Z.opp (readDigits rest 0)
  | _ => readDigits s 0
  end.

Definition integerParseFloat (s : string) : number :=
  match readInteger s with
  | Some z => Fin (inject_Z z)
  | None => NaN
  end.

Definition integerToNumber (s : string) : number :=
  match s with
  | EmptyString => Fin 0
  | _ => integerParseFloat s
  end.

(** ** Configurations used as examples *)

(** A strictly increasing threshold sequence that starts below zero. *)
Definition belowZeroConfig : config :=
  {| monthly := {| thresholds := [Fin (-10); Fin 5]; rates := [Fin 2; Fin 1; Fin 1] |};
     quarterly := {| thresholds := [Fin (-10); Fin 5]; rates := [Fin 2; Fin 1; Fin 1] |} |}.

(** The defaults of the salary-relative variant. *)
Definition defaultDynamicConfig (StringToNumber : string -> number) : config :=
  SalaryRelative.dynamicTierConfig StringToNumber
    (SalaryRelative.monthlySalary SalaryRelative.initialApp)
    SalaryRelative.INITIAL_RATES.

(* ================================================================== *)
(** * The salary-relative variant with its local storage *)
(* ================================================================== *)

(** [src/App.js] keeps its three state values in the browser's local
    storage through the hook [useLocalStorage].  A store maps a key to the
    text held under it.  [JSON.stringify] and [JSON.parse] are built-ins,
    taken as parameters at the type of the value a key holds; [parse] gives
    [None] when [JSON.parse] throws.  A stored text that [JSON.parse] reads
    as a value of another shape than the one the program writes under the
    key (left there by something else than the program) has no counterpart
    here.  A write to the store can be refused (quota): [accepts] says
    whether [setItem] succeeds. *)
Module Persistence.

Definition storage := string -> option string.

Definition getItem (st : storage) (key : string) : option string := st key.

Definition store (st : storage) (key item : string) : storage :=
  fun k => if String.eqb k key then Some item else st k.

Definition removeItem (st : storage) (key : string) : storage :=
  fun k => if String.eqb k key then None else st k.

Section Hook.

Variable accepts : storage -> string -> string -> bool.

(** [setItem(key, item)]: [None] when it throws. *)
Definition setItem (st : storage) (key item : string) : option storage :=
  if accepts st key item then Some (store st key item) else None.

Variable T : Type.
Variable parse : string -> option T.
Variable stringify : T -> string.

(** The initial state of [useLocalStorage(key, initialValue)]:
    [item ? JSON.parse(item) : initialValue], and [initialValue] when this
    throws. *)
Definition initialState (st : storage) (key : string) (initialValue : T) : T :=
  match getItem st key with
  | None => initialValue
  | Some item =>
      if String.eqb item "" then initialValue
      else match parse item with
           | Some v => v
           | None => initialValue
           end
  end.

(** The argument of [setValue]: a value, or a function of the stored
    value. *)
Inductive update : Type :=
| Value (v : T)
| Function (f : T -> T).

(** [setValue(value)]: the new state and the new store.  The state is set
    before the store is written, so it changes even when the write throws
    (the exception is caught and logged). *)
Definition setValue (key : string) (value : update) (storedValue : T) (st : storage)
  : T * storage :=
  let valueToStore :=
    match value with
    | Function f => f storedValue
    | Value v => v
    end in
  match setItem st key (stringify valueToStore) with
  | Some st' => (valueToStore, st')
  | None => (valueToStore, st)
  end.

End Hook.

Definition KEY_SALARY : string := "bonusCalculator_salary".
Definition KEY_RATES : string := "bonusCalculator_rates".
Definition KEY_PERF : string := "bonusCalculator_perf".

(** The page: the three stored values, whether the reset dialog is open,
    and the store. *)
Record session : Type := {
  app : SalaryRelative.app;
  isResetModalOpen : bool;
  local : storage
}.

Section App.

Variable accepts : storage -> string -> string -> bool.
Variable parseSalary : string -> option value.
Variable stringifySalary : value -> string.
Variable parseRates : string -> option (by_scheme array).
Variable stringifyRates : by_scheme array -> string.
Variable parsePerf : string -> option perf.
Variable stringifyPerf : perf -> string.
Variable parseFloat : string -> number.

(** Loading the page: each hook reads its key; the dialog is closed. *)
Definition mount (st : storage) : session :=
  {| app :=
       {| SalaryRelative.monthlySalary :=
            initialState parseSalary st KEY_SALARY (VNumber 40000);
          SalaryRelative.tierRates :=
            initialState parseRates st KEY_RATES SalaryRelative.INITIAL_RATES;
          SalaryRelative.perfData :=
            initialState parsePerf st KEY_PERF SalaryRelative.INITIAL_PERF_DATA |};
     isResetModalOpen := false;
     local := st |}.

Definition setMonthlySalary (value : update value) (s : session) : session :=
  let '(v, st) := setValue accepts stringifySalary KEY_SALARY value
                    (SalaryRelative.monthlySalary (app s)) (local s) in
  {| app := SalaryRelative.setMonthlySalary v (app s);
     isResetModalOpen := isResetModalOpen s;
     local := st |}.

Definition setTierRates (value : update (by_scheme array)) (s : session) : session :=
  let '(v, st) := setValue accepts stringifyRates KEY_RATES value
                    (SalaryRelative.tierRates (app s)) (local s) in
  {| app := SalaryRelative.setTierRates (fun _ => v) (app s);
     isResetModalOpen := isResetModalOpen s;
     local := st |}.

Definition setPerfData (value : update perf) (s : session) : session :=
  let '(v, st) := setValue accepts stringifyPerf KEY_PERF value
                    (SalaryRelative.perfData (app s)) (local s) in
  {| app := SalaryRelative.setPerfData (fun _ => v) (app s);
     isResetModalOpen := isResetModalOpen s;
     local := st |}.

Definition setIsResetModalOpen (b : bool) (s : session) : session :=
  {| app := app s; isResetModalOpen := b; local := local s |}.

Definition handleRateChange (type : scheme) (index : nat) (newRate : number)
  : session -> session :=
  setTierRates (Function (SalaryRelative.handleRateChange type index newRate)).

Definition handlePerfChange (field : SalaryRelative.perfField) (value : string)
  : session -> session :=
  setPerfData (Function (SalaryRelative.handlePerfChange field value)).

Definition handleSalaryChange (newSalary : string) : session -> session :=
  setMonthlySalary (Value (VString newSalary)).

(** [handleReset]: the three keys are removed and the page is reloaded. *)
Definition handleReset (s : session) : session :=
  mount (removeItem (removeItem (removeItem (local s) KEY_SALARY) KEY_RATES) KEY_PERF).

(** What the user can do.  The buttons of the dialog exist only while it is
    open. *)
Inductive event : Type :=
| SalaryInput (value : string)
| RateInput (type : scheme) (row : nat) (value : string)
| PerfInput (field : SalaryRelative.perfField) (value : string)
| OpenReset
| CancelReset
| ConfirmReset.

Definition step (s : session) (e : event) : session :=
  match e with
  | SalaryInput value => handleSalaryChange value s
  | RateInput type row value =>
      match nth_error
              (SalaryRelative.tierRows
                 (lookup (SalaryRelative.tierRates (app s)) type)) row with
      | Some r =>
          SalaryRelative.handleInputChange parseFloat handleRateChange
            type (SalaryRelative.index r) value s
      | None => s
      end
  | PerfInput field value => handlePerfChange field value s
  | OpenReset => setIsResetModalOpen true s
  | CancelReset => if isResetModalOpen s then setIsResetModalOpen false s else s
  | ConfirmReset => if isResetModalOpen s then handleReset s else s
  end.

Definition run (s : session) (events : list event) : session :=
  fold_left step events s.

(** The same events for the state machine without the store; the events of
    the dialog leave the three values alone. *)
Definition forget (e : event) : list SalaryRelative.event :=
  match e with
  | SalaryInput value => [SalaryRelative.SalaryInput value]
  | RateInput type row value => [SalaryRelative.RateInput type row value]
  | PerfInput field value => [SalaryRelative.PerfInput field value]
  | OpenReset | CancelReset | ConfirmReset => []
  end.

(** A key of the program is in step with a value: nothing is stored and the
    value is the default, or the text stored is the value's. *)
Definition in_step {T : Type} (stringify : T -> string)
    (st : storage) (key : string) (default current : T) : Prop :=
  (getItem st key = None /\ current = default)
  \/ getItem st key = Some (stringify current).

Definition mirrors (s : session) : Prop :=
  in_step stringifySalary (local s) KEY_SALARY (VNumber 40000)
    (SalaryRelative.monthlySalary (app s))
  /\ in_step stringifyRates (local s) KEY_RATES SalaryRelative.INITIAL_RATES
       (SalaryRelative.tierRates (app s))
  /\ in_step stringifyPerf (local s) KEY_PERF SalaryRelative.INITIAL_PERF_DATA
       (SalaryRelative.perfData (app s)).

End App.

(** A store in which the program has nothing. *)
Definition fresh (st : storage) : Prop :=
  getItem st KEY_SALARY = None /\ getItem st KEY_RATES = None
  /\ getItem st KEY_PERF = None.

Definition emptyStorage : storage := fun _ => None.

(** Sample encoders for the examples: the salary text as it is, and fixed
    texts for the two tables. *)
Definition sampleStringifySalary (v : value) : string :=
  match v with
  | VString s => s
  | VNumber _ => "40000"
  end.

Definition sampleParseSalary (s : string) : option value := Some (VString s).

End Persistence.

Unset Implicit Arguments.

(** Case analysis on which operand [Qmin x y] is. *)
Ltac min_cases x y :=
  let H := fresh "Hmin" in
  destruct (Q.min_spec x y) as [[? H]|[? H]].

(* ================================================================== *)
(** * Numbers: basic facts *)
(* ================================================================== *)

Lemma number_eq_refl (a : number) : (a ≡ a)%js.
Proof. destruct a; simpl; [exact I | reflexivity]. Qed.

Lemma number_eq_sym (a b : number) : (a ≡ b)%js -> (b ≡ a)%js.
Proof. destruct a, b; simpl; auto. intros H; symmetry; exact H. Qed.

Lemma number_eq_trans (a b c : number) : (a ≡ b)%js -> (b ≡ c)%js -> (a ≡ c)%js.
Proof.
  destruct a, b, c; simpl; try tauto.
  intros H1 H2; rewrite H1; exact H2.
Qed.

Lemma leb_Fin (x y : Q) : (Fin x <=? Fin y)%js = true <-> x <= y.
Proof. simpl. apply Qle_bool_iff. Qed.

Lemma ltb_Fin (x y : Q) : (Fin x <? Fin y)%js = true <-> x < y.
Proof.
  simpl. rewrite negb_true_iff. split.
  - intros H. apply Qnot_le_lt. intros Hle.
    apply Qle_bool_iff in Hle. congruence.
  - intros H. destruct (Qle_bool y x) eqn:E; [|reflexivity].
    apply Qle_bool_iff in E. lra.
Qed.

Lemma Qle_bool_false (x y : Q) : Qle_bool x y = false <-> y < x.
Proof.
  split.
  - intros H. apply Qnot_le_lt. intros Hle.
    apply Qle_bool_iff in Hle. congruence.
  - intros H. destruct (Qle_bool x y) eqn:E; [|reflexivity].
    apply Qle_bool_iff in E. lra.
Qed.

(** A number that is [<= 0] is not [> 0]. *)
Lemma leb_zero_not_gtb (p : number) : (p <=? 0)%js = true -> (p >? 0)%js = false.
Proof.
  destruct p as [|q]; simpl; [discriminate|].
  intros H. rewrite H. reflexivity.
Qed.

(** [a || 0] is never [NaN], and is the literal [0] unless [a] is a non-zero
    number. *)
Lemma or_zero_cases (a : number) :
  (or_zero a = Fin 0 /\ truthy a = false)
  \/ (exists q, a = Fin q /\ ~ q == 0 /\ or_zero a = Fin q).
Proof.
  unfold or_zero. destruct a as [|q]; simpl.
  - left. split; reflexivity.
  - destruct (Qeq_bool q 0) eqn:E; simpl.
    + left. split; reflexivity.
    + right. exists q. split; [reflexivity|]. split; [|reflexivity].
      intros H. apply Qeq_bool_iff in H. congruence.
Qed.

Lemma or_zero_finite (a : number) : exists q, or_zero a = Fin q.
Proof.
  destruct (or_zero_cases a) as [[H _]|(q & _ & _ & H)]; eauto.
Qed.

Lemma or_zero_NaN : or_zero NaN = Fin 0.
Proof. reflexivity. Qed.

(* ================================================================== *)
(** * Arrays *)
(* ================================================================== *)

Lemma array_get_map_Fin (pre suf : list Q) (x : Q) :
  array_get (map Fin (pre ++ x :: suf)) (List.length pre) = Fin x.
Proof.
  unfold array_get. rewrite map_app. simpl.
  rewrite app_nth2; rewrite length_map; [|lia].
  rewrite Nat.sub_diag. reflexivity.
Qed.

Lemma array_get_last (rs : list Q) :
  rs <> [] ->
  array_get (map Fin rs) (List.length (map Fin rs) - 1) = Fin (last rs 0).
Proof.
  intros Hne. destruct (exists_last Hne) as (pre & x & ->).
  rewrite last_last. rewrite length_map, length_app. simpl.
  replace (List.length pre + 1 - 1)%nat with (List.length pre) by lia.
  apply (array_get_map_Fin pre [] x).
Qed.

Lemma array_set_length (a : array) (i : nat) (v : number) :
  (i < List.length a)%nat -> List.length (array_set a i v) = List.length a.
Proof.
  revert i. induction a as [|x a IH]; intros i Hi; simpl in *; [lia|].
  destruct i; simpl; [reflexivity|]. rewrite IH; [reflexivity|lia].
Qed.

(** The written index reads back the written value. *)
Lemma array_get_set_same (a : array) (i : nat) (v : number) :
  array_get (array_set a i v) i = v.
Proof.
  unfold array_get. revert i. induction a as [|x a IH]; intros i.
  - induction i as [|i IHi]; simpl; [reflexivity|exact IHi].
  - destruct i; simpl; [reflexivity|apply IH].
Qed.

(** Every other index reads what it read before. *)
Lemma array_get_set_other (a : array) (i j : nat) (v : number) :
  i <> j -> array_get (array_set a i v) j = array_get a j.
Proof.
  unfold array_get. revert i j. induction a as [|x a IH]; intros i j Hij.
  - revert j Hij. induction i as [|i IHi]; intros j Hij; simpl.
    + destruct j as [|j]; [congruence|]. destruct j; reflexivity.
    + destruct j as [|j]; [reflexivity|].
      rewrite IHi by congruence. destruct j; reflexivity.
  - destruct i, j; simpl; try reflexivity; try congruence.
    apply IH. congruence.
Qed.

Lemma array_set_Forall (P : number -> Prop) (a : array) (i : nat) (v : number) :
  (i < List.length a)%nat -> Forall P a -> P v -> Forall P (array_set a i v).
Proof.
  revert i. induction a as [|x a IH]; intros i Hi Ha Hv; simpl in *; [lia|].
  inversion Ha; subst.
  destruct i; constructor; auto. apply IH; auto. lia.
Qed.

(* ================================================================== *)
(** * The tier walk on finite values *)
(* ================================================================== *)

(** On finite entries the loop of [calculateProgressiveBonus] computes
    [tierWalk]: [tpre] and [rpre] are the entries already visited. *)
Lemma tierLoop_finite (tsuf : list Q) :
  forall (tpre rpre rsuf : list Q) (b rem lb : Q),
    List.length tpre = List.length rpre ->
    (List.length tsuf <= List.length rsuf)%nat ->
    let w := tierLoop (List.length tsuf) (List.length tpre)
               (map Fin (tpre ++ tsuf)) (map Fin (rpre ++ rsuf))
               {| bonus := Fin b; remainingPerf := Fin rem; lowerBound := Fin lb |} in
    bonus w = Fin (fst (tierWalk tsuf rsuf b rem lb))
    /\ remainingPerf w = Fin (snd (tierWalk tsuf rsuf b rem lb)).
Proof.
  induction tsuf as [|t ts IH]; intros tpre rpre rsuf b rem lb Hpre Hlen.
  - simpl. destruct rsuf; split; reflexivity.
  - destruct rsuf as [|r rs]; [simpl in Hlen; lia|].
    cbn [tierLoop List.length tierWalk bonus remainingPerf lowerBound].
    rewrite array_get_map_Fin.
    rewrite Hpre, array_get_map_Fin.
    cbn [number_leb number_sub number_mul number_add Math_min].
    destruct (Qle_bool rem 0) eqn:E.
    + split; reflexivity.
    + specialize (IH (tpre ++ [t]) (rpre ++ [r]) rs
                     (b + Qmin rem (t - lb) * r) (rem - Qmin rem (t - lb)) t).
      rewrite !length_app in IH. simpl in IH.
      rewrite <- !app_assoc in IH. simpl in IH.
      rewrite <- Hpre.
      replace (S (List.length tpre)) with (List.length tpre + 1)%nat by lia.
      apply IH; [lia|]. simpl in Hlen. lia.
Qed.

(** On a finite table with a rate for every threshold the calculator is
    [progressiveBonus]. *)
Lemma calculateProgressiveBonus_finite
    (config : config) (type : scheme) (ts rs : list Q) (p : Q) :
  tier_of (lookup config type) ts rs ->
  (List.length ts <= List.length rs)%nat ->
  rs <> [] ->
  calculateProgressiveBonus (Fin p) type config = Fin (progressiveBonus p ts rs).
Proof.
  intros [Hts Hrs] Hlen Hne.
  unfold calculateProgressiveBonus, progressiveBonus, finish.
  rewrite Hts, Hrs.
  destruct (tierLoop_finite ts [] [] rs 0 p 0 eq_refl Hlen) as [Hb Hr].
  simpl in Hb, Hr. rewrite length_map.
  rewrite Hb, Hr. rewrite array_get_last by exact Hne.
  unfold number_gtb. cbn [number_ltb number_add number_mul].
  destruct (Qle_bool (snd (tierWalk ts rs 0 p 0)) 0); reflexivity.
Qed.

Lemma progressiveBonus_finish (p : Q) (ts rs : list Q) :
  progressiveBonus p ts rs = finish (tierWalk ts rs 0 p 0) (last rs 0).
Proof. reflexivity. Qed.

Lemma finish_mono (b b' rem rem' topRate : Q) :
  0 <= topRate -> b <= b' -> rem <= rem' ->
  finish (b, rem) topRate <= finish (b', rem') topRate.
Proof.
  intros Hr Hb Hrem. unfold finish. simpl.
  destruct (Qle_bool rem 0) eqn:E, (Qle_bool rem' 0) eqn:E'.
  - exact Hb.
  - apply Qle_bool_false in E'. nra.
  - apply Qle_bool_iff in E'. apply Qle_bool_false in E. lra.
  - apply Qle_bool_false in E. apply Qle_bool_false in E'. nra.
Qed.

(** With ranges and rates that are not negative, the walk never takes away
    from the bonus accumulated so far. *)
Lemma tierWalk_ge (ts : list Q) :
  forall (rs : list Q) (b rem lb topRate : Q),
    ascending lb ts -> Forall (Qle 0) rs -> 0 <= topRate ->
    b <= finish (tierWalk ts rs b rem lb) topRate.
Proof.
  induction ts as [|t ts IH]; intros rs b rem lb topRate Hasc Hrs Htop.
  - simpl. unfold finish; simpl.
    destruct (Qle_bool rem 0) eqn:E; [lra|].
    apply Qle_bool_false in E. nra.
  - destruct rs as [|r rs]; simpl.
    + unfold finish; simpl.
      destruct (Qle_bool rem 0) eqn:E; [lra|].
      apply Qle_bool_false in E. nra.
    + destruct Hasc as [Hlb Hasc]. inversion Hrs as [|? ? Hr Hrs']; subst.
      destruct (Qle_bool rem 0) eqn:E.
      * unfold finish; simpl. rewrite E. lra.
      * apply Qle_bool_false in E.
        specialize (IH rs (b + Qmin rem (t - lb) * r) (rem - Qmin rem (t - lb))
                       t topRate Hasc Hrs' Htop).
        assert (0 <= Qmin rem (t - lb)) by (apply Q.min_glb; lra).
        nra.
Qed.

(** The walk is monotone in the bonus so far and in the performance left. *)
Lemma tierWalk_mono (ts : list Q) :
  forall (rs : list Q) (b b' rem rem' lb topRate : Q),
    ascending lb ts -> Forall (Qle 0) rs -> 0 <= topRate ->
    b <= b' -> rem <= rem' ->
    finish (tierWalk ts rs b rem lb) topRate
    <= finish (tierWalk ts rs b' rem' lb) topRate.
Proof.
  induction ts as [|t ts IH]; intros rs b b' rem rem' lb topRate Hasc Hrs Htop Hb Hrem.
  - simpl. apply finish_mono; assumption.
  - destruct rs as [|r rs]; [simpl; apply finish_mono; assumption|].
    destruct Hasc as [Hlb Hasc]. inversion Hrs as [|? ? Hr Hrs']; subst.
    cbn [tierWalk].
    destruct (Qle_bool rem 0) eqn:E, (Qle_bool rem' 0) eqn:E'.
    + apply finish_mono; assumption.
    + apply Qle_bool_false in E'.
      assert (0 <= Qmin rem' (t - lb)) by (apply Q.min_glb; lra).
      pose proof (tierWalk_ge ts rs (b' + Qmin rem' (t - lb) * r)
                    (rem' - Qmin rem' (t - lb)) t topRate Hasc Hrs' Htop) as Hge.
      unfold finish at 1; simpl. rewrite E. nra.
    + apply Qle_bool_iff in E'. apply Qle_bool_false in E. lra.
    + apply Qle_bool_false in E. apply Qle_bool_false in E'.
      apply IH; try assumption.
      * assert (Qmin rem (t - lb) <= Qmin rem' (t - lb))
          by (apply Q.min_le_compat_r; assumption).
        nra.
      * min_cases rem (t - lb); min_cases rem' (t - lb); lra.
Qed.

Lemma strictly_increasing_ascending (ts : list Q) :
  forall lb, strictly_increasing ts ->
    match ts with [] => True | t :: _ => lb <= t end ->
    ascending lb ts.
Proof.
  induction ts as [|t ts IH]; intros lb Hinc Hfirst; simpl; [exact I|].
  split; [exact Hfirst|].
  destruct Hinc as [Hnext Hinc]. apply IH; [exact Hinc|].
  destruct ts; [exact I|lra].
Qed.

Lemma Forall_last (P : Q -> Prop) (l : list Q) (d : Q) :
  Forall P l -> P d -> P (last l d).
Proof.
  induction l as [|x l IH]; intros Hl Hd; [exact Hd|].
  inversion Hl; subst. destruct l; [assumption|]. apply IH; assumption.
Qed.

(** Monotonicity of the calculator on rationals. *)
Lemma progressiveBonus_mono (ts rs : list Q) (p p' : Q) :
  ascending 0 ts -> Forall (Qle 0) rs -> p <= p' ->
  progressiveBonus p ts rs <= progressiveBonus p' ts rs.
Proof.
  intros Hasc Hrs Hp. rewrite !progressiveBonus_finish.
  apply tierWalk_mono; try assumption; try lra.
  apply Forall_last; [assumption|lra].
Qed.

(* ================================================================== *)
(** * The numeric scenarios *)
(* ================================================================== *)

(** First scenario of the reduced-tier table: 150000 lies in the second
    tier. *)
Lemma reduced_tier_150000 :
  (calculateProgressiveBonus 150000 Monthly Fixed.INITIAL_TIER_CONFIG ≡ 5100)%js
  /\ Binary64.calculateProgressiveBonus 150000%float Monthly Binary64.INITIAL_TIER_CONFIG
     = 5100%float.
Proof. split; vm_compute; reflexivity. Qed.

(** The walk of the reduced-tier table on 450000 leaves 50000 above the
    highest threshold. *)
Lemma reduced_tier_450000_walk :
  fst (tierWalk [120000; 200000; 400000] [0.03; 0.05; 0.10] 0 450000 0) == 27600
  /\ snd (tierWalk [120000; 200000; 400000] [0.03; 0.05; 0.10] 0 450000 0) == 50000.
Proof. split; vm_compute; reflexivity. Qed.

(** C1, as stated, does not hold: for the reduced-tier table
    (thresholds 120000, 200000, 400000; rates 0.03, 0.05, 0.10) and
    performance 450000, [calculateProgressiveBonus] does not return 27600,
    neither on exact values nor on binary64 floats. *)
Lemma C1_not_27600 :
  ~ (calculateProgressiveBonus 450000 Monthly Fixed.INITIAL_TIER_CONFIG ≡ 27600)%js
  /\ PrimFloat.eqb
       (Binary64.calculateProgressiveBonus 450000%float Monthly Binary64.INITIAL_TIER_CONFIG)
       27600%float = false.
Proof.
  split.
  - vm_compute. discriminate.
  - vm_compute. reflexivity.
Qed.

(** C1 (amended): for the reduced-tier table (thresholds 120000, 200000,
    400000; rates 0.03, 0.05, 0.10, the last rate being applied to what
    exceeds the highest threshold) and performance 450000,
    [calculateProgressiveBonus] returns exactly 32600: the 27600 of the
    three bounded tiers plus 50000 * 0.10 for the part above 400000.  The
    binary64 run gives the same value, with no rounding error. *)
Theorem C1_reduced_tier_450000 :
  (calculateProgressiveBonus 450000 Monthly Fixed.INITIAL_TIER_CONFIG ≡ 32600)%js
  /\ Binary64.calculateProgressiveBonus 450000%float Monthly Binary64.INITIAL_TIER_CONFIG
     = 32600%float.
Proof. split; vm_compute; reflexivity. Qed.

(** C2: with the default salary 40000 the salary-relative variant derives
    the thresholds 120000, 200000, 400000 (multipliers 3, 5, 10); with the
    initial rates 0.03, 0.05, 0.10, 0.15 the calculator returns exactly
    42600 for performance 500000.  The binary64 run gives the same value. *)
Theorem C2_four_tier_500000 (StringToNumber : string -> number) :
  thresholds (monthly (defaultDynamicConfig StringToNumber))
    = [Fin 120000; Fin 200000; Fin 400000]
  /\ rates (monthly (defaultDynamicConfig StringToNumber))
    = [Fin 0.03; Fin 0.05; Fin 0.10; Fin 0.15]
  /\ (calculateProgressiveBonus 500000 Monthly (defaultDynamicConfig StringToNumber)
      ≡ 42600)%js
  /\ Binary64.calculateProgressiveBonus 500000%float Monthly
       (Binary64.dynamicTierConfig 40000%float Binary64.INITIAL_RATES)
     = 42600%float.
Proof.
  split; [reflexivity|]. split; [reflexivity|].
  split; vm_compute; reflexivity.
Qed.

(* ================================================================== *)
(** * Monotonicity *)
(* ================================================================== *)

(** The walk starts from [lowerBound = 0], so the thresholds are read as
    lying at or above 0, as the data model asks (all thresholds > 0) and as
    every table of the two variants that is strictly increasing does.  On a
    table that starts below 0, which no state of the program holds, the
    first tier would have a negative width: with thresholds -10, 5 and
    rates 2, 1, 1 performance 0 earns 0 and performance 1 earns -9.  This is
    why the theorems below ask for a first threshold that is not
    negative. *)
Lemma first_threshold_below_zero :
  tier_of (lookup belowZeroConfig Monthly) [-10; 5] [2; 1; 1]
  /\ strictly_increasing [-10; 5]
  /\ List.length [2; 1; 1] = S (List.length [-10; 5])
  /\ Forall (Qle 0) [2; 1; 1]
  /\ 0 <= 0 /\ 0 <= 1
  /\ calculateProgressiveBonus 0 Monthly belowZeroConfig = Fin 0
  /\ (calculateProgressiveBonus 1 Monthly belowZeroConfig ≡ Fin (-9))%js
  /\ (calculateProgressiveBonus 0 Monthly belowZeroConfig
      <=? calculateProgressiveBonus 1 Monthly belowZeroConfig)%js = false.
Proof.
  split; [split; reflexivity|].
  split; [simpl; intuition lra|].
  split; [reflexivity|].
  split; [repeat constructor; lra|].
  split; [lra|]. split; [lra|].
  split; [reflexivity|].
  split; vm_compute; reflexivity.
Qed.

(** Monotonicity in the performance, for any finite table that has a rate
    for every threshold (as both variants' tables do) and whose thresholds
    never decrease from 0. *)
Lemma calculateProgressiveBonus_monotone
    (config : config) (type : scheme) (ts rs : list Q) (p p' : Q) :
  tier_of (lookup config type) ts rs ->
  ascending 0 ts ->
  (List.length ts <= List.length rs)%nat -> rs <> [] ->
  Forall (Qle 0) rs ->
  p <= p' ->
  (calculateProgressiveBonus p type config
   <=? calculateProgressiveBonus p' type config)%js = true.
Proof.
  intros Htier Hasc Hlen Hne Hrs Hp.
  rewrite !(calculateProgressiveBonus_finite config type ts rs) by assumption.
  apply leb_Fin, progressiveBonus_mono; assumption.
Qed.

(** C3: for every pair of non-negative performances p <= p', every
    strictly increasing threshold sequence (of thresholds that are not
    negative: the data model has all thresholds > 0), and every rates
    sequence of length thresholds.length + 1 with all rates >= 0,
    calculateProgressiveBonus(p, config) <= calculateProgressiveBonus(p', config):
    more performance never yields less bonus. *)
Theorem C3_monotone
    (config : config) (type : scheme) (ts rs : list Q) (p p' : Q) :
  tier_of (lookup config type) ts rs ->
  strictly_increasing ts ->
  starts_at_or_above 0 ts ->
  List.length rs = S (List.length ts) ->
  Forall (Qle 0) rs ->
  0 <= p -> p <= p' ->
  (calculateProgressiveBonus p type config
   <=? calculateProgressiveBonus p' type config)%js = true.
Proof.
  intros Htier Hinc Hfirst Hlen Hrs _ Hp.
  apply (calculateProgressiveBonus_monotone config type ts rs); try assumption.
  - apply strictly_increasing_ascending; assumption.
  - lia.
  - destruct rs; [discriminate Hlen|discriminate].
Qed.

Lemma C3_monotone_witness :
  (calculateProgressiveBonus 150000 Monthly (defaultDynamicConfig integerToNumber)
   <=? calculateProgressiveBonus 450000 Monthly (defaultDynamicConfig integerToNumber))%js
  = true.
Proof.
  apply (C3_monotone (defaultDynamicConfig integerToNumber) Monthly
           [120000; 200000; 400000] [0.03; 0.05; 0.10; 0.15] 150000 450000).
  - split; reflexivity.
  - simpl. intuition lra.
  - simpl. lra.
  - reflexivity.
  - repeat constructor; lra.
  - lra.
  - lra.
Defined.

(* ================================================================== *)
(** * Zero and negative performance *)
(* ================================================================== *)

(** With nothing left to allocate the loop stops at once, whatever the
    table. *)
Lemma tierLoop_nothing_left (n i : nat) (thresholds rates : array) (w : walk) :
  (remainingPerf w <=? 0)%js = true ->
  tierLoop n i thresholds rates w = w.
Proof.
  intros H. destruct n; simpl; [reflexivity|]. rewrite H. reflexivity.
Qed.

Lemma zero_or_negative_leb (p : number) :
  (p === 0)%js = true \/ (p <? 0)%js = true -> (p <=? 0)%js = true.
Proof.
  destruct p as [|q]; simpl; intros [H|H]; try discriminate.
  - apply Qeq_bool_iff in H. apply Qle_bool_iff. lra.
  - apply negb_true_iff, Qle_bool_false in H. apply Qle_bool_iff. lra.
Qed.

Lemma calculateProgressiveBonus_nothing (config : config) (type : scheme) (p : number) :
  (p <=? 0)%js = true -> calculateProgressiveBonus p type config = Fin 0.
Proof.
  intros H. unfold calculateProgressiveBonus.
  rewrite tierLoop_nothing_left by exact H.
  cbn [remainingPerf bonus]. rewrite (leb_zero_not_gtb p H). reflexivity.
Qed.

(** C4: for every tier configuration (valid or not),
    [calculateProgressiveBonus] returns 0 when the performance equals 0 and
    when it is negative: the tier walk stops at once, leaving its variables
    as they were, and the overflow branch is not taken. *)
Theorem C4_zero_or_negative (config : config) (type : scheme) (p : number) :
  (p === 0)%js = true \/ (p <? 0)%js = true ->
  tierLoop (List.length (thresholds (lookup config type))) 0
    (thresholds (lookup config type)) (rates (lookup config type))
    {| bonus := 0; remainingPerf := p; lowerBound := 0 |}
  = {| bonus := 0; remainingPerf := p; lowerBound := 0 |}
  /\ (p >? 0)%js = false
  /\ calculateProgressiveBonus p type config = Fin 0.
Proof.
  intros H. apply zero_or_negative_leb in H.
  split; [|split].
  - apply tierLoop_nothing_left. exact H.
  - apply leb_zero_not_gtb, H.
  - apply calculateProgressiveBonus_nothing, H.
Qed.

Lemma C4_zero_or_negative_witness :
  calculateProgressiveBonus 0 Monthly Fixed.INITIAL_TIER_CONFIG = Fin 0
  /\ calculateProgressiveBonus (-5) Quarterly (defaultDynamicConfig integerToNumber) = Fin 0.
Proof.
  split.
  - apply (C4_zero_or_negative Fixed.INITIAL_TIER_CONFIG Monthly 0).
    left. reflexivity.
  - apply (C4_zero_or_negative (defaultDynamicConfig integerToNumber) Quarterly (-5)).
    right. reflexivity.
Defined.

(** An empty table and a table without rates make no difference. *)
Lemma zero_on_empty_table (p : number) :
  (p <=? 0)%js = true ->
  calculateProgressiveBonus p Monthly
    {| monthly := {| thresholds := []; rates := [] |};
       quarterly := {| thresholds := [Fin 1]; rates := [] |} |} = Fin 0
  /\ calculateProgressiveBonus p Quarterly
       {| monthly := {| thresholds := []; rates := [] |};
          quarterly := {| thresholds := [Fin 1]; rates := [] |} |} = Fin 0.
Proof.
  intros H. split; apply calculateProgressiveBonus_nothing, H.
Qed.

(* ================================================================== *)
(** * Malformed performance input *)
(* ================================================================== *)

(** A field that does not read as a number is coerced to the literal 0. *)
Lemma malformed_coerced (StringToNumber : string -> number) (v : value) :
  Number StringToNumber v = NaN -> NumberOrZero StringToNumber v = Fin 0.
Proof. unfold NumberOrZero. intros ->. reflexivity. Qed.

(** So is an empty field, and any field that reads as zero. *)
Lemma falsy_coerced (StringToNumber : string -> number) (v : value) :
  truthy (Number StringToNumber v) = false -> NumberOrZero StringToNumber v = Fin 0.
Proof. unfold NumberOrZero, or_zero. intros ->. reflexivity. Qed.

Lemma empty_coerced (StringToNumber : string -> number) :
  StringToNumber ""%string = Fin 0 ->
  NumberOrZero StringToNumber (VString "") = Fin 0.
Proof. intros H. apply falsy_coerced. simpl. rewrite H. reflexivity. Qed.

Lemma NumberOrZero_finite (StringToNumber : string -> number) (v : value) :
  exists q, NumberOrZero StringToNumber v = Fin q.
Proof. apply or_zero_finite. Qed.

Lemma add_zero_l (a : number) : (0 + a ≡ a)%js.
Proof. destruct a as [|q]; simpl; [exact I|ring]. Qed.

Lemma add_zero_r (a : number) : (a + 0 ≡ a)%js.
Proof. destruct a as [|q]; simpl; [exact I|ring]. Qed.

Lemma add_zero_mid (a b : number) : (a + 0 + b ≡ a + b)%js.
Proof. destruct a as [|x], b as [|y]; simpl; try exact I. ring. Qed.

(** The effect of the salary-relative panel: no results when the three
    performances are all zero, otherwise the results [calculateResults]
    computes. *)
Lemma recalculate_eq (StringToNumber : string -> number)
    (perfData : perf) (tierConfig : config) :
  SalaryRelative.recalculate StringToNumber perfData tierConfig
  = if ((NumberOrZero StringToNumber (perf1 perfData) === 0)
        && (NumberOrZero StringToNumber (perf2 perfData) === 0)
        && (NumberOrZero StringToNumber (perf3 perfData) === 0))%js
    then None
    else Some (Fixed.calculateResults StringToNumber perfData tierConfig).
Proof.
  unfold SalaryRelative.recalculate, Fixed.calculateResults.
  destruct (_ && _); reflexivity.
Qed.

(** When the salary-relative panel shows results, they are the ones
    [calculateResults] computes. *)
Lemma recalculate_Some (StringToNumber : string -> number)
    (perfData : perf) (tierConfig : config) (r : results) :
  SalaryRelative.recalculate StringToNumber perfData tierConfig = Some r ->
  r = Fixed.calculateResults StringToNumber perfData tierConfig.
Proof.
  unfold SalaryRelative.recalculate, Fixed.calculateResults.
  destruct (_ && _); [discriminate|]. intros H; injection H as <-. reflexivity.
Qed.

(** It shows none exactly when the three fields all coerce to zero. *)
Lemma recalculate_None (StringToNumber : string -> number)
    (perfData : perf) (tierConfig : config) :
  SalaryRelative.recalculate StringToNumber perfData tierConfig = None
  <-> ((NumberOrZero StringToNumber (perf1 perfData) === 0)%js = true
       /\ (NumberOrZero StringToNumber (perf2 perfData) === 0)%js = true
       /\ (NumberOrZero StringToNumber (perf3 perfData) === 0)%js = true).
Proof.
  unfold SalaryRelative.recalculate.
  destruct (NumberOrZero StringToNumber (perf1 perfData) === 0)%js,
           (NumberOrZero StringToNumber (perf2 perfData) === 0)%js,
           (NumberOrZero StringToNumber (perf3 perfData) === 0)%js;
    simpl; split; intros H; try discriminate; try reflexivity; auto;
    destruct H as (H1 & H2 & H3); discriminate.
Qed.

(** C8: a performance field whose text is not numeric ([Number] gives
    [NaN]) is coerced to 0 before [calculateProgressiveBonus] is called: the
    month earns a zero bonus under every configuration, it adds nothing to
    the quarterly performance, and the results are computed all the same.
    [calculateResults] computes them for whatever the other two fields
    hold; the effect of the salary-relative panel produces these very
    results as soon as one of the other two fields coerces to a number
    other than zero, and produces none (and no error) when both coerce to
    zero, exactly as if the malformed field had been left empty. *)
Theorem C8_malformed_input (StringToNumber : string -> number) (v : value) :
  Number StringToNumber v = NaN ->
  NumberOrZero StringToNumber v = Fin 0
  /\ (forall type config,
        calculateProgressiveBonus (NumberOrZero StringToNumber v) type config = Fin 0)
  /\ (forall v2 v3 tierConfig,
        let r := Fixed.calculateResults StringToNumber
                   {| perf1 := v; perf2 := v2; perf3 := v3 |} tierConfig in
        monthly_bonus1 r = Fin 0
        /\ (quarterly_totalPerf r
            ≡ NumberOrZero StringToNumber v2 + NumberOrZero StringToNumber v3)%js)
  /\ (forall v1 v3 tierConfig,
        let r := Fixed.calculateResults StringToNumber
                   {| perf1 := v1; perf2 := v; perf3 := v3 |} tierConfig in
        monthly_bonus2 r = Fin 0
        /\ (quarterly_totalPerf r
            ≡ NumberOrZero StringToNumber v1 + NumberOrZero StringToNumber v3)%js)
  /\ (forall v1 v2 tierConfig,
        let r := Fixed.calculateResults StringToNumber
                   {| perf1 := v1; perf2 := v2; perf3 := v |} tierConfig in
        monthly_bonus3 r = Fin 0
        /\ (quarterly_totalPerf r
            ≡ NumberOrZero StringToNumber v1 + NumberOrZero StringToNumber v2)%js)
  /\ (forall v2 v3 tierConfig,
        SalaryRelative.recalculate StringToNumber
          {| perf1 := v; perf2 := v2; perf3 := v3 |} tierConfig
        = if ((NumberOrZero StringToNumber v2 === 0)
              && (NumberOrZero StringToNumber v3 === 0))%js
          then None
          else Some (Fixed.calculateResults StringToNumber
                       {| perf1 := v; perf2 := v2; perf3 := v3 |} tierConfig))
  /\ (forall v1 v3 tierConfig,
        SalaryRelative.recalculate StringToNumber
          {| perf1 := v1; perf2 := v; perf3 := v3 |} tierConfig
        = if ((NumberOrZero StringToNumber v1 === 0)
              && (NumberOrZero StringToNumber v3 === 0))%js
          then None
          else Some (Fixed.calculateResults StringToNumber
                       {| perf1 := v1; perf2 := v; perf3 := v3 |} tierConfig))
  /\ (forall v1 v2 tierConfig,
        SalaryRelative.recalculate StringToNumber
          {| perf1 := v1; perf2 := v2; perf3 := v |} tierConfig
        = if ((NumberOrZero StringToNumber v1 === 0)
              && (NumberOrZero StringToNumber v2 === 0))%js
          then None
          else Some (Fixed.calculateResults StringToNumber
                       {| perf1 := v1; perf2 := v2; perf3 := v |} tierConfig)).
Proof.
  intros HNaN.
  pose proof (malformed_coerced StringToNumber v HNaN) as H0.
  assert (Hzero : forall type config,
             calculateProgressiveBonus (NumberOrZero StringToNumber v) type config = Fin 0).
  { intros type config. rewrite H0.
    apply calculateProgressiveBonus_nothing. reflexivity. }
  split; [exact H0|]. split; [exact Hzero|].
  split; [|split; [|split; [|split; [|split]]]].
  - intros v2 v3 tierConfig. cbn zeta. unfold Fixed.calculateResults. simpl.
    split; [apply Hzero|]. rewrite H0.
    destruct (NumberOrZero_finite StringToNumber v2) as [q2 ->].
    destruct (NumberOrZero_finite StringToNumber v3) as [q3 ->].
    simpl. ring.
  - intros v1 v3 tierConfig. cbn zeta. unfold Fixed.calculateResults. simpl.
    split; [apply Hzero|]. rewrite H0. apply add_zero_mid.
  - intros v1 v2 tierConfig. cbn zeta. unfold Fixed.calculateResults. simpl.
    split; [apply Hzero|]. rewrite H0. apply add_zero_r.
  - intros v2 v3 tierConfig. rewrite recalculate_eq. cbn [perf1 perf2 perf3].
    rewrite H0. reflexivity.
  - intros v1 v3 tierConfig. rewrite recalculate_eq. cbn [perf1 perf2 perf3].
    rewrite H0. cbn [number_eqb Qeq_bool]. rewrite andb_true_r. reflexivity.
  - intros v1 v2 tierConfig. rewrite recalculate_eq. cbn [perf1 perf2 perf3].
    rewrite H0. cbn [number_eqb Qeq_bool]. rewrite andb_true_r. reflexivity.
Qed.

Lemma C8_malformed_input_witness :
  NumberOrZero integerToNumber (VString "12a") = Fin 0
  /\ calculateProgressiveBonus (NumberOrZero integerToNumber (VString "12a"))
       Monthly Fixed.INITIAL_TIER_CONFIG = Fin 0
  /\ monthly_bonus1
       (Fixed.calculateResults integerToNumber
          {| perf1 := VString "12a"; perf2 := VString "150000"; perf3 := VString "" |}
          (defaultDynamicConfig integerToNumber)) = Fin 0
  /\ SalaryRelative.recalculate integerToNumber
       {| perf1 := VString "12a"; perf2 := VString "150000"; perf3 := VString "" |}
       (defaultDynamicConfig integerToNumber)
     = Some (Fixed.calculateResults integerToNumber
               {| perf1 := VString "12a"; perf2 := VString "150000"; perf3 := VString "" |}
               (defaultDynamicConfig integerToNumber))
  /\ SalaryRelative.recalculate integerToNumber
       {| perf1 := VString ""; perf2 := VString "12a"; perf3 := VString "" |}
       (defaultDynamicConfig integerToNumber)
     = None.
Proof.
  destruct (C8_malformed_input integerToNumber (VString "12a") eq_refl)
    as (H0 & Hzero & H1 & _ & _ & E1 & E2 & _).
  split; [exact H0|]. split; [apply Hzero|].
  split; [apply (H1 (VString "150000") (VString "") (defaultDynamicConfig integerToNumber))|].
  split.
  - exact (E1 (VString "150000") (VString "") (defaultDynamicConfig integerToNumber)).
  - exact (E2 (VString "") (VString "") (defaultDynamicConfig integerToNumber)).
Defined.

(* ================================================================== *)
(** * Derived thresholds and the salary field *)
(* ================================================================== *)

Lemma dynamic_thresholds (StringToNumber : string -> number)
    (monthlySalary : value) (tierRates : by_scheme array) (s : Q) :
  NumberOrZero StringToNumber monthlySalary = Fin s ->
  thresholds (monthly (SalaryRelative.dynamicTierConfig StringToNumber monthlySalary tierRates))
    = [Fin (3 * s); Fin (5 * s); Fin (10 * s)]
  /\ thresholds (quarterly (SalaryRelative.dynamicTierConfig StringToNumber monthlySalary tierRates))
    = [Fin (3 * s * 3); Fin (5 * s * 3); Fin (10 * s * 3)].
Proof.
  intros Hs. unfold SalaryRelative.dynamicTierConfig. rewrite Hs.
  split; reflexivity.
Qed.

Lemma dynamic_rates (StringToNumber : string -> number)
    (monthlySalary : value) (tierRates : by_scheme array) (type : scheme) :
  rates (lookup (SalaryRelative.dynamicTierConfig StringToNumber monthlySalary tierRates) type)
  = lookup tierRates type.
Proof. destruct type; reflexivity. Qed.

(** Across tiers of zero width nothing is allocated. *)
Lemma tierWalk_zero_width (ts : list Q) :
  forall (rs : list Q) (b rem lb : Q),
    Forall (fun t => t == 0) ts -> lb == 0 -> 0 < rem ->
    fst (tierWalk ts rs b rem lb) == b /\ snd (tierWalk ts rs b rem lb) == rem.
Proof.
  induction ts as [|t ts IH]; intros rs b rem lb Hts Hlb Hrem.
  - simpl. split; reflexivity.
  - destruct rs as [|r rs]; [simpl; split; reflexivity|].
    inversion Hts as [|? ? Ht Hts']; subst.
    cbn [tierWalk].
    assert (E : Qle_bool rem 0 = false) by (apply Qle_bool_false; exact Hrem).
    rewrite E.
    assert (Hm : Qmin rem (t - lb) == 0) by (min_cases rem (t - lb); lra).
    assert (Hmr : Qmin rem (t - lb) * r == 0) by (rewrite Hm; ring).
    destruct (IH rs (b + Qmin rem (t - lb) * r) (rem - Qmin rem (t - lb)) t
                 Hts' Ht ltac:(lra)) as [Hb Hr].
    split; lra.
Qed.

(** C9: in the salary-relative variant an empty or non-numeric salary field
    is coerced to 0 and every derived threshold is 0; then, with four
    (finite) rates, every strictly positive performance p earns exactly
    p times the last rate, rates[3]. *)
Theorem C9_zero_salary (StringToNumber : string -> number)
    (monthlySalary : value) (tierRates : by_scheme array) :
  StringToNumber ""%string = Fin 0 ->
  monthlySalary = VString "" \/ Number StringToNumber monthlySalary = NaN ->
  NumberOrZero StringToNumber monthlySalary = Fin 0
  /\ thresholds (monthly (SalaryRelative.dynamicTierConfig StringToNumber monthlySalary tierRates))
     = [Fin 0; Fin 0; Fin 0]
  /\ thresholds (quarterly (SalaryRelative.dynamicTierConfig StringToNumber monthlySalary tierRates))
     = [Fin 0; Fin 0; Fin 0]
  /\ forall (type : scheme) (rs : list Q) (p : Q),
       lookup tierRates type = map Fin rs ->
       List.length rs = 4%nat ->
       0 < p ->
       (calculateProgressiveBonus p type
          (SalaryRelative.dynamicTierConfig StringToNumber monthlySalary tierRates)
        ≡ Fin (p * nth 3 rs 0))%js.
Proof.
  intros Hempty Hsalary.
  assert (H0 : NumberOrZero StringToNumber monthlySalary = Fin 0).
  { destruct Hsalary as [->|HNaN].
    - unfold NumberOrZero. simpl. rewrite Hempty. reflexivity.
    - apply malformed_coerced, HNaN. }
  destruct (dynamic_thresholds StringToNumber monthlySalary tierRates 0 H0) as [Hm Hq].
  split; [exact H0|]. split; [exact Hm|]. split; [exact Hq|].
  intros type rs p Hrs Hlen Hp.
  destruct rs as [|r0 [|r1 [|r2 [|r3 [|]]]]]; try discriminate Hlen.
  rewrite (calculateProgressiveBonus_finite _ type [0; 0; 0] [r0; r1; r2; r3]).
  - rewrite progressiveBonus_finish.
    destruct (tierWalk_zero_width [0; 0; 0] [r0; r1; r2; r3] 0 p 0) as [Hb Hr].
    + repeat constructor; reflexivity.
    + reflexivity.
    + exact Hp.
    + unfold finish.
      assert (E : Qle_bool (snd (tierWalk [0; 0; 0] [r0; r1; r2; r3] 0 p 0)) 0 = false)
        by (apply Qle_bool_false; lra).
      rewrite E. cbn [number_eq last nth].
      rewrite Hb, Hr. ring.
  - split.
    + destruct type; cbn [lookup]; [rewrite Hm|rewrite Hq]; reflexivity.
    + rewrite dynamic_rates. exact Hrs.
  - simpl. lia.
  - discriminate.
Qed.

Lemma C9_zero_salary_witness :
  (calculateProgressiveBonus 1000 Monthly
     (SalaryRelative.dynamicTierConfig integerToNumber (VString "")
        SalaryRelative.INITIAL_RATES)
   ≡ Fin (1000 * 0.15))%js.
Proof.
  destruct (C9_zero_salary integerToNumber (VString "") SalaryRelative.INITIAL_RATES
              eq_refl (or_introl eq_refl)) as (_ & _ & _ & H).
  apply (H Monthly [0.03; 0.05; 0.10; 0.15] 1000).
  - reflexivity.
  - reflexivity.
  - lra.
Defined.

Local Set Warnings "-inexact-float".

(** C6, as stated, does not hold of the numbers the program computes.  A
    quarterly threshold is the monthly threshold times 3, two products each
    rounded to binary64, and that is not always the product of the salary
    by 9, 15 or 30: with the salary 33333.33 the quarterly thresholds are
    299999.97000000003, 499999.95000000007 and 999999.90000000014, while
    15 s and 30 s are 499999.95000000001 and 999999.90000000002. *)
Lemma C6_quarterly_thresholds_rounded :
  Binary64.thresholds
    (quarterly (Binary64.dynamicTierConfig 33333.33%float Binary64.INITIAL_RATES))
  = [299999.97000000003; 499999.95000000007; 999999.90000000014]%float
  /\ (15 * 33333.33 = 499999.95000000001)%float
  /\ (30 * 33333.33 = 999999.90000000002)%float
  /\ PrimFloat.eqb
       (Binary64.array_get
          (Binary64.thresholds
             (quarterly (Binary64.dynamicTierConfig 33333.33%float Binary64.INITIAL_RATES)))
          1)
       (15 * 33333.33)%float = false
  /\ PrimFloat.eqb
       (Binary64.array_get
          (Binary64.thresholds
             (quarterly (Binary64.dynamicTierConfig 33333.33%float Binary64.INITIAL_RATES)))
          2)
       (30 * 33333.33)%float = false.
Proof. repeat split; vm_compute; reflexivity. Qed.

(** C6 (amended): in the salary-relative variant, with s the number the
    salary field coerces to (never [NaN]), the monthly thresholds are the
    products 3 s, 5 s, 10 s and each quarterly threshold is the monthly one
    times 3: (3 s) 3, (5 s) 3, (10 s) 3, on the values of the model and on
    binary64 floats alike; and [handleRateChange(type, index, newRate)]
    makes [rates[type][index]] read [newRate], leaves every other rate of
    both schemes as it was, and leaves all thresholds as they were. *)
Theorem C6_thresholds_and_rate_frame (StringToNumber : string -> number)
    (monthlySalary : value) (tierRates : by_scheme array) :
  exists s : Q,
    NumberOrZero StringToNumber monthlySalary = Fin s
    /\ thresholds (monthly (SalaryRelative.dynamicTierConfig StringToNumber monthlySalary tierRates))
       = [Fin (3 * s); Fin (5 * s); Fin (10 * s)]
    /\ thresholds (quarterly (SalaryRelative.dynamicTierConfig StringToNumber monthlySalary tierRates))
       = [Fin (3 * s * 3); Fin (5 * s * 3); Fin (10 * s * 3)]
    /\ thresholds (quarterly (SalaryRelative.dynamicTierConfig StringToNumber monthlySalary tierRates))
       = map (fun t => (t * 3)%js)
           (thresholds (monthly (SalaryRelative.dynamicTierConfig StringToNumber monthlySalary tierRates)))
    /\ (forall (salary : float) (rates64 : by_scheme (list float)),
          Binary64.thresholds (monthly (Binary64.dynamicTierConfig salary rates64))
          = [3 * salary; 5 * salary; 10 * salary]%float
          /\ Binary64.thresholds (quarterly (Binary64.dynamicTierConfig salary rates64))
             = [3 * salary * 3; 5 * salary * 3; 10 * salary * 3]%float)
    /\ forall (type : scheme) (index : nat) (newRate : number),
         array_get (lookup (SalaryRelative.handleRateChange type index newRate tierRates) type)
           index = newRate
         /\ (forall (t : scheme) (j : nat),
               t <> type \/ j <> index ->
               array_get (lookup (SalaryRelative.handleRateChange type index newRate tierRates) t) j
               = array_get (lookup tierRates t) j)
         /\ (forall t : scheme,
               thresholds (lookup (SalaryRelative.dynamicTierConfig StringToNumber monthlySalary
                                     (SalaryRelative.handleRateChange type index newRate tierRates)) t)
               = thresholds (lookup (SalaryRelative.dynamicTierConfig StringToNumber monthlySalary
                                       tierRates) t)).
Proof.
  destruct (NumberOrZero_finite StringToNumber monthlySalary) as [s Hs].
  exists s. split; [exact Hs|].
  destruct (dynamic_thresholds StringToNumber monthlySalary tierRates s Hs) as [Hm Hq].
  split; [exact Hm|]. split; [exact Hq|].
  split; [reflexivity|]. split; [intros salary rates64; split; reflexivity|].
  intros type index newRate. split; [|split].
  - unfold SalaryRelative.handleRateChange.
    destruct type; simpl; apply array_get_set_same.
  - intros t j Hneq. unfold SalaryRelative.handleRateChange.
    destruct type, t; simpl; try reflexivity;
      destruct Hneq as [Hneq|Hneq]; try congruence;
      apply array_get_set_other; congruence.
  - intros t. destruct t; reflexivity.
Qed.

(* ================================================================== *)
(** * Rate edits *)
(* ================================================================== *)

Lemma valid_rate_Fin (r : number) : valid_rate r <-> exists q, r = Fin q /\ 0 <= q.
Proof.
  unfold valid_rate, number_geb. split.
  - destruct r as [|q]; simpl; [discriminate|].
    intros H. exists q. split; [reflexivity|]. apply Qle_bool_iff, H.
  - intros (q & -> & Hq). apply leb_Fin, Hq.
Qed.

Lemma percent_valid (q : Q) : 0 <= q -> valid_rate (Fin q / 100)%js.
Proof.
  intros Hq. apply valid_rate_Fin. exists (q / 100). split; [reflexivity|].
  apply Qle_shift_div_l; lra.
Qed.

(** The guard of [handleInputChange], by cases on what [parseFloat] reads. *)
Lemma handleInputChange_cases_fixed {S : Type} (parseFloat : string -> number)
    (onRateChange : scheme -> nat -> number -> S -> S)
    (type : scheme) (index : nat) (value : string) (s : S) :
  (forall q, parseFloat value = Fin q -> 0 <= q ->
     Fixed.handleInputChange parseFloat onRateChange type index value s
     = onRateChange type index (Fin (q / 100)) s)
  /\ (parseFloat value = NaN ->
      Fixed.handleInputChange parseFloat onRateChange type index value s = s)
  /\ (forall q, parseFloat value = Fin q -> q < 0 ->
      Fixed.handleInputChange parseFloat onRateChange type index value s = s).
Proof.
  unfold Fixed.handleInputChange. repeat split.
  - intros q -> Hq. cbn [isNaN negb andb number_geb number_leb].
    apply Qle_bool_iff in Hq. rewrite Hq. reflexivity.
  - intros ->. reflexivity.
  - intros q -> Hq. cbn [isNaN negb andb number_geb number_leb].
    apply Qle_bool_false in Hq. rewrite Hq. reflexivity.
Qed.

Lemma handleInputChange_cases_salary {S : Type} (parseFloat : string -> number)
    (onRateChange : scheme -> nat -> number -> S -> S)
    (type : scheme) (index : nat) (value : string) (s : S) :
  (forall q, parseFloat value = Fin q -> 0 <= q ->
     SalaryRelative.handleInputChange parseFloat onRateChange type index value s
     = onRateChange type index (Fin (q / 100)) s)
  /\ (parseFloat value = NaN ->
      SalaryRelative.handleInputChange parseFloat onRateChange type index value s = s)
  /\ (forall q, parseFloat value = Fin q -> q < 0 ->
      SalaryRelative.handleInputChange parseFloat onRateChange type index value s = s).
Proof.
  unfold SalaryRelative.handleInputChange. repeat split.
  - intros q -> Hq. cbn [isNaN negb andb number_geb number_leb].
    apply Qle_bool_iff in Hq. rewrite Hq. reflexivity.
  - intros ->. reflexivity.
  - intros q -> Hq. cbn [isNaN negb andb number_geb number_leb].
    apply Qle_bool_false in Hq. rewrite Hq. reflexivity.
Qed.

(** Whatever the text, an edit either leaves the state alone or stores a
    valid rate. *)
Lemma handleInputChange_fixed_preserves {S : Type} (P : S -> Prop)
    (parseFloat : string -> number)
    (onRateChange : scheme -> nat -> number -> S -> S)
    (type : scheme) (index : nat) (value : string) (s : S) :
  P s ->
  (forall r, valid_rate r -> P (onRateChange type index r s)) ->
  P (Fixed.handleInputChange parseFloat onRateChange type index value s).
Proof.
  intros Hs Hset.
  destruct (handleInputChange_cases_fixed parseFloat onRateChange type index value s)
    as (Hok & HNaN & Hneg).
  destruct (parseFloat value) as [|q] eqn:E.
  - rewrite HNaN by reflexivity. exact Hs.
  - destruct (Qlt_le_dec q 0) as [Hq|Hq].
    + rewrite (Hneg q eq_refl Hq). exact Hs.
    + rewrite (Hok q eq_refl Hq). apply Hset, percent_valid, Hq.
Qed.

Lemma handleInputChange_salary_preserves {S : Type} (P : S -> Prop)
    (parseFloat : string -> number)
    (onRateChange : scheme -> nat -> number -> S -> S)
    (type : scheme) (index : nat) (value : string) (s : S) :
  P s ->
  (forall r, valid_rate r -> P (onRateChange type index r s)) ->
  P (SalaryRelative.handleInputChange parseFloat onRateChange type index value s).
Proof.
  intros Hs Hset.
  destruct (handleInputChange_cases_salary parseFloat onRateChange type index value s)
    as (Hok & HNaN & Hneg).
  destruct (parseFloat value) as [|q] eqn:E.
  - rewrite HNaN by reflexivity. exact Hs.
  - destruct (Qlt_le_dec q 0) as [Hq|Hq].
    + rewrite (Hneg q eq_refl Hq). exact Hs.
    + rewrite (Hok q eq_refl Hq). apply Hset, percent_valid, Hq.
Qed.

(** ** The fixed-threshold variant *)

Lemma fixed_invariant_initial : fixed_invariant Fixed.INITIAL_TIER_CONFIG.
Proof.
  intros type. split; [reflexivity|]. split; [destruct type; reflexivity|].
  destruct type; simpl; repeat constructor.
Qed.

Lemma fixed_handleRateChange_invariant
    (type : scheme) (index : nat) (r : number) (c : config) :
  fixed_invariant c -> (index < 3)%nat -> valid_rate r ->
  fixed_invariant (Fixed.handleRateChange type index r c).
Proof.
  intros Hc Hi Hr t. unfold Fixed.handleRateChange.
  destruct (Hc t) as (Hth & Hlen & Hall).
  destruct (Hc type) as (Hth' & Hlen' & Hall').
  destruct type, t; cbn [lookup update monthly quarterly thresholds rates] in *;
    try (split; [assumption|split; assumption]).
  - split; [assumption|]. split.
    + rewrite array_set_length; lia.
    + apply array_set_Forall; [lia|assumption|assumption].
  - split; [assumption|]. split.
    + rewrite array_set_length; lia.
    + apply array_set_Forall; [lia|assumption|assumption].
Qed.

(** Every row of the table edits one of the three rates. *)
Lemma fixed_row_index (table : tier) (row : nat) (r : Fixed.tierRow) :
  nth_error (Fixed.tierRows table) row = Some r -> (Fixed.index r < 3)%nat.
Proof.
  unfold Fixed.tierRows.
  destruct row as [|[|[|[|row]]]]; simpl; intros H;
    try (injection H as <-; simpl; lia).
  destruct row; discriminate.
Qed.

Lemma fixed_step_invariant (parseFloat : string -> number)
    (a : Fixed.app) (e : Fixed.event) :
  fixed_invariant (Fixed.tierConfig a) ->
  fixed_invariant (Fixed.tierConfig (Fixed.step parseFloat a e)).
Proof.
  intros Ha. destruct e as [type row value|index value|t]; simpl.
  - destruct (nth_error _ row) as [r|] eqn:Hrow; [|exact Ha].
    destruct (Fixed.disabled _ row); [exact Ha|].
    apply (handleInputChange_fixed_preserves
             (fun a => fixed_invariant (Fixed.tierConfig a))); [exact Ha|].
    intros r' Hr'. simpl.
    apply fixed_handleRateChange_invariant; [exact Ha| |exact Hr'].
    apply (fixed_row_index _ _ _ Hrow).
  - destruct (Fixed.isCustom a); exact Ha.
  - exact Ha.
Qed.

Lemma fixed_run_invariant (parseFloat : string -> number) (events : list Fixed.event) :
  forall a : Fixed.app,
    fixed_invariant (Fixed.tierConfig a) ->
    fixed_invariant (Fixed.tierConfig (Fixed.run parseFloat a events)).
Proof.
  unfold Fixed.run.
  induction events as [|e events IH]; intros a Ha; simpl; [exact Ha|].
  apply IH, fixed_step_invariant, Ha.
Qed.

(** ** The salary-relative variant *)

Lemma rates_invariant_initial : rates_invariant SalaryRelative.INITIAL_RATES.
Proof.
  intros type. split; [destruct type; reflexivity|].
  destruct type; simpl; repeat constructor.
Qed.

Lemma salary_handleRateChange_invariant
    (type : scheme) (index : nat) (r : number) (t : by_scheme array) :
  rates_invariant t -> (index < 4)%nat -> valid_rate r ->
  rates_invariant (SalaryRelative.handleRateChange type index r t).
Proof.
  intros Ht Hi Hr ty. unfold SalaryRelative.handleRateChange.
  destruct (Ht ty) as (Hlen & Hall).
  destruct (Ht type) as (Hlen' & Hall').
  destruct type, ty; cbn [lookup update monthly quarterly] in *;
    try (split; assumption).
  - split; [rewrite array_set_length; lia|].
    apply array_set_Forall; [lia|assumption|assumption].
  - split; [rewrite array_set_length; lia|].
    apply array_set_Forall; [lia|assumption|assumption].
Qed.

Lemma salary_row_index (rates : array) (row : nat) (r : SalaryRelative.tierRow) :
  nth_error (SalaryRelative.tierRows rates) row = Some r ->
  (SalaryRelative.index r < 4)%nat.
Proof.
  unfold SalaryRelative.tierRows.
  destruct row as [|[|[|[|row]]]]; simpl; intros H;
    try (injection H as <-; simpl; lia).
  destruct row; discriminate.
Qed.

Lemma salary_step_invariant (parseFloat : string -> number)
    (a : SalaryRelative.app) (e : SalaryRelative.event) :
  rates_invariant (SalaryRelative.tierRates a) ->
  rates_invariant (SalaryRelative.tierRates (SalaryRelative.step parseFloat a e)).
Proof.
  intros Ha. destruct e as [value|type row value|field value|]; simpl.
  - exact Ha.
  - destruct (nth_error _ row) as [r|] eqn:Hrow; [|exact Ha].
    apply (handleInputChange_salary_preserves
             (fun a => rates_invariant (SalaryRelative.tierRates a))); [exact Ha|].
    intros r' Hr'. simpl.
    apply salary_handleRateChange_invariant; [exact Ha| |exact Hr'].
    apply (salary_row_index _ _ _ Hrow).
  - exact Ha.
  - apply rates_invariant_initial.
Qed.

Lemma salary_run_invariant (parseFloat : string -> number)
    (events : list SalaryRelative.event) :
  forall a : SalaryRelative.app,
    rates_invariant (SalaryRelative.tierRates a) ->
    rates_invariant
      (SalaryRelative.tierRates (SalaryRelative.run parseFloat a events)).
Proof.
  unfold SalaryRelative.run.
  induction events as [|e events IH]; intros a Ha; simpl; [exact Ha|].
  apply IH, salary_step_invariant, Ha.
Qed.

(** C10: a rate edit entered in a tier table is applied only when the
    entered text parses to a finite number >= 0 (the rate stored is that
    number divided by 100); when it parses to [NaN] or to a negative number
    the state is left as it was.  Consequently, starting from the initial
    configuration, every rate of both schemes is a number >= 0 after any
    sequence of user events, in both variants.  (A parsed value is, in the
    number model, [NaN] or finite.) *)
Theorem C10_rates_stay_valid (parseFloat : string -> number) :
  (forall (S : Type) (onRateChange : scheme -> nat -> number -> S -> S)
          (type : scheme) (index : nat) (value : string) (s : S),
      (forall q, parseFloat value = Fin q -> 0 <= q ->
         Fixed.handleInputChange parseFloat onRateChange type index value s
         = onRateChange type index (Fin (q / 100)) s
         /\ SalaryRelative.handleInputChange parseFloat onRateChange type index value s
            = onRateChange type index (Fin (q / 100)) s)
      /\ (parseFloat value = NaN \/ (exists q, parseFloat value = Fin q /\ q < 0) ->
          Fixed.handleInputChange parseFloat onRateChange type index value s = s
          /\ SalaryRelative.handleInputChange parseFloat onRateChange type index value s = s))
  /\ (forall (events : list Fixed.event) (type : scheme),
        Forall valid_rate
          (rates (lookup (Fixed.tierConfig
                            (Fixed.run parseFloat Fixed.initialApp events)) type)))
  /\ (forall (events : list SalaryRelative.event) (type : scheme),
        Forall valid_rate
          (lookup (SalaryRelative.tierRates
                     (SalaryRelative.run parseFloat SalaryRelative.initialApp events)) type)).
Proof.
  split; [|split].
  - intros S onRateChange type index value s.
    destruct (handleInputChange_cases_fixed parseFloat onRateChange type index value s)
      as (Hok & HNaN & Hneg).
    destruct (handleInputChange_cases_salary parseFloat onRateChange type index value s)
      as (Hok' & HNaN' & Hneg').
    split.
    + intros q Hq Hpos. split; auto.
    + intros [H|(q & Hq & Hlt)]; split; eauto.
  - intros events type.
    apply (fixed_run_invariant parseFloat events Fixed.initialApp fixed_invariant_initial).
  - intros events type.
    apply (salary_run_invariant parseFloat events SalaryRelative.initialApp
             rates_invariant_initial).
Qed.

(** An accepted edit, a negative one and a non-numeric one, on the
    salary-relative variant. *)
Lemma rate_edits_example :
  lookup (SalaryRelative.tierRates
            (SalaryRelative.run integerParseFloat SalaryRelative.initialApp
               [SalaryRelative.RateInput Monthly 3 "20";
                SalaryRelative.RateInput Monthly 0 "-5";
                SalaryRelative.RateInput Quarterly 1 "abc"])) Monthly
  = [Fin 0.03; Fin 0.05; Fin 0.10; Fin (inject_Z 20 / 100)]
  /\ lookup (SalaryRelative.tierRates
            (SalaryRelative.run integerParseFloat SalaryRelative.initialApp
               [SalaryRelative.RateInput Monthly 3 "20";
                SalaryRelative.RateInput Monthly 0 "-5";
                SalaryRelative.RateInput Quarterly 1 "abc"])) Quarterly
     = [Fin 0.03; Fin 0.05; Fin 0.10; Fin 0.15].
Proof. split; reflexivity. Qed.

(* ================================================================== *)
(** * The rate applied above the highest threshold *)
(* ================================================================== *)

Lemma last_cons_default (t d : Q) (ts : list Q) : last (t :: ts) d = last ts t.
Proof.
  revert t d. induction ts as [|t' ts IH]; intros t d; [reflexivity|].
  change (last (t :: t' :: ts) d) with (last (t' :: ts) d).
  rewrite (IH t' d), (IH t' t). reflexivity.
Qed.

(** A performance above every threshold fills every bounded tier. *)
Lemma tierWalk_above (ts : list Q) :
  forall (rs : list Q) (b rem lb : Q),
    (List.length ts <= List.length rs)%nat ->
    0 < rem ->
    Forall (fun t => t - lb < rem) ts ->
    fst (tierWalk ts rs b rem lb) == b + tiersTotal lb ts rs
    /\ snd (tierWalk ts rs b rem lb) == rem - (last ts lb - lb).
Proof.
  induction ts as [|t ts IH]; intros rs b rem lb Hlen Hrem Hts.
  - simpl. split; ring.
  - destruct rs as [|r rs]; [simpl in Hlen; lia|].
    inversion Hts as [|? ? Ht Hts']; subst.
    cbn [tierWalk tiersTotal].
    assert (E : Qle_bool rem 0 = false) by (apply Qle_bool_false; exact Hrem).
    rewrite E.
    assert (Hm : Qmin rem (t - lb) == t - lb) by (apply Q.min_r; lra).
    assert (Hmr : Qmin rem (t - lb) * r == (t - lb) * r) by (rewrite Hm; ring).
    destruct (IH rs (b + Qmin rem (t - lb) * r) (rem - Qmin rem (t - lb)) t)
      as [Hb Hr].
    + simpl in Hlen. lia.
    + lra.
    + eapply Forall_impl; [|exact Hts']. intros t' Ht'. simpl in Ht'. lra.
    + rewrite last_cons_default. split; lra.
Qed.

(** Above the highest threshold the bonus is the total of the bounded tiers
    plus the excess at the last rate of the sequence. *)
Lemma progressiveBonus_above (ts rs : list Q) (p : Q) :
  (List.length ts <= List.length rs)%nat ->
  0 < p ->
  Forall (fun t => t < p) ts ->
  progressiveBonus p ts rs == tiersTotal 0 ts rs + (p - last ts 0) * last rs 0.
Proof.
  intros Hlen Hp Hts.
  destruct (tierWalk_above ts rs 0 p 0 Hlen Hp) as [Hb Hr].
  { eapply Forall_impl; [|exact Hts]. intros t Ht. simpl in Ht. lra. }
  assert (Hlast : last ts 0 < p) by (apply Forall_last; assumption).
  unfold progressiveBonus, finish.
  assert (E : Qle_bool (snd (tierWalk ts rs 0 p 0)) 0 = false)
    by (apply Qle_bool_false; lra).
  rewrite E, Hb, Hr. ring.
Qed.

Lemma valid_rates_finite (a : array) :
  Forall valid_rate a -> exists rs : list Q, a = map Fin rs /\ Forall (Qle 0) rs.
Proof.
  induction 1 as [|r a Hr _ (rs & -> & Hrs)].
  - exists []. split; [reflexivity|constructor].
  - apply valid_rate_Fin in Hr. destruct Hr as (q & -> & Hq).
    exists (q :: rs). split; [reflexivity|constructor; assumption].
Qed.

(** C7, as stated, does not hold in the fixed-threshold variant: its table
    has as many rates as thresholds (three), the last row of the table shows
    and edits index 2, and the rate the calculator applies above the highest
    threshold is the third tier's rate: after the third tier's rate is
    edited to 20 percent, the 50000 between 400000 and 450000 earn
    50000 * 0.20. *)
Lemma C7_fixed_variant_shares_rate :
  List.length (rates (monthly Fixed.INITIAL_TIER_CONFIG))
    = List.length (thresholds (monthly Fixed.INITIAL_TIER_CONFIG))
  /\ List.length (rates (monthly Fixed.INITIAL_TIER_CONFIG))
     <> S (List.length (thresholds (monthly Fixed.INITIAL_TIER_CONFIG)))
  /\ map Fixed.index (Fixed.tierRows (monthly Fixed.INITIAL_TIER_CONFIG))
     = [0; 1; 2; 2]%nat
  /\ (calculateProgressiveBonus 450000 Monthly
        (Fixed.tierConfig
           (Fixed.run integerParseFloat Fixed.initialApp [Fixed.RateInput Monthly 2 "20"]))
      - calculateProgressiveBonus 400000 Monthly
          (Fixed.tierConfig
             (Fixed.run integerParseFloat Fixed.initialApp [Fixed.RateInput Monthly 2 "20"]))
      ≡ Fin (50000 * 0.20))%js.
Proof.
  split; [reflexivity|]. split; [simpl; lia|]. split; [reflexivity|].
  vm_compute. reflexivity.
Qed.

(** C7 (amended): in the salary-relative variant the data model holds an
    independent top-tier rate: in every reachable state each scheme has
    four rates for three thresholds, and (for a positive salary) a
    performance above the highest threshold earns the total of the three
    bounded tiers plus the excess at rates[3], which an edit of any of the
    three bounded tiers leaves unchanged.  In the fixed-threshold variant
    each scheme has three rates for three thresholds in every reachable
    state, and a performance above the highest threshold earns the total of
    the three bounded tiers plus the excess at rates[2], the third bounded
    tier's rate. *)
Theorem C7_top_tier_rate (StringToNumber parseFloat : string -> number) :
  (forall (events : list SalaryRelative.event) (type : scheme),
      exists (s r0 r1 r2 r3 : Q),
        let a := SalaryRelative.run parseFloat SalaryRelative.initialApp events in
        NumberOrZero StringToNumber (SalaryRelative.monthlySalary a) = Fin s
        /\ lookup (SalaryRelative.tierRates a) type = [Fin r0; Fin r1; Fin r2; Fin r3]
        /\ List.length (rates (lookup (SalaryRelative.tierConfig StringToNumber a) type))
           = S (List.length (thresholds (lookup (SalaryRelative.tierConfig StringToNumber a) type)))
        /\ (forall (index : nat) (newRate : number), (index < 3)%nat ->
              array_get (lookup (SalaryRelative.handleRateChange type index newRate
                                   (SalaryRelative.tierRates a)) type) 3 = Fin r3)
        /\ (forall (ts : list Q) (p : Q),
              thresholds (lookup (SalaryRelative.tierConfig StringToNumber a) type) = map Fin ts ->
              0 < s -> Forall (fun t => t < p) ts ->
              (calculateProgressiveBonus p type (SalaryRelative.tierConfig StringToNumber a)
               ≡ Fin (tiersTotal 0 ts [r0; r1; r2] + (p - last ts 0) * r3))%js))
  /\ (forall (events : list Fixed.event) (type : scheme),
        exists (t0 t1 t2 r0 r1 r2 : Q),
          let c := Fixed.tierConfig (Fixed.run parseFloat Fixed.initialApp events) in
          thresholds (lookup c type) = [Fin t0; Fin t1; Fin t2]
          /\ thresholds (lookup c type) = thresholds (lookup Fixed.INITIAL_TIER_CONFIG type)
          /\ rates (lookup c type) = [Fin r0; Fin r1; Fin r2]
          /\ (forall p : Q, t2 < p ->
                (calculateProgressiveBonus p type c
                 ≡ Fin (tiersTotal 0 [t0; t1; t2] [r0; r1; r2] + (p - t2) * r2))%js)).
Proof.
  split.
  - intros events type.
    destruct (salary_run_invariant parseFloat events SalaryRelative.initialApp
                rates_invariant_initial type) as [Hlen Hall].
    destruct (valid_rates_finite _ Hall) as (rs & Hrs & _).
    rewrite Hrs, length_map in Hlen.
    destruct rs as [|r0 [|r1 [|r2 [|r3 [|]]]]]; try discriminate Hlen.
    destruct (NumberOrZero_finite StringToNumber
                (SalaryRelative.monthlySalary
                   (SalaryRelative.run parseFloat SalaryRelative.initialApp events)))
      as [s Hs].
    exists s, r0, r1, r2, r3. cbn zeta.
    set (a := SalaryRelative.run parseFloat SalaryRelative.initialApp events) in *.
    destruct (dynamic_thresholds StringToNumber (SalaryRelative.monthlySalary a)
                (SalaryRelative.tierRates a) s Hs) as [Hm Hq].
    split; [exact Hs|]. split; [exact Hrs|]. split; [|split].
    + unfold SalaryRelative.tierConfig. rewrite dynamic_rates, Hrs.
      destruct type; cbn [lookup]; [rewrite Hm|rewrite Hq]; reflexivity.
    + intros index newRate Hi. unfold SalaryRelative.handleRateChange.
      assert (Hget : array_get (array_set (lookup (SalaryRelative.tierRates a) type)
                                  index newRate) 3
                     = array_get (lookup (SalaryRelative.tierRates a) type) 3)
        by (apply array_get_set_other; lia).
      rewrite Hrs in Hget at 2.
      destruct type; cbn [lookup update monthly quarterly] in *; exact Hget.
    + intros ts p Hts Hpos Hp.
      assert (Hl : List.length ts = 3%nat).
      { apply (f_equal (@List.length number)) in Hts. rewrite length_map in Hts.
        rewrite <- Hts. unfold SalaryRelative.tierConfig.
        destruct type; cbn [lookup]; [rewrite Hm|rewrite Hq]; reflexivity. }
      rewrite (calculateProgressiveBonus_finite _ type ts [r0; r1; r2; r3]).
      * cbn [number_eq].
        assert (Hp0 : 0 < p).
        { destruct ts as [|t ts]; [discriminate Hl|].
          inversion Hp as [|? ? Ht _]; subst.
          unfold SalaryRelative.tierConfig in Hts.
          destruct type; cbn [lookup] in Hts;
            [rewrite Hm in Hts|rewrite Hq in Hts];
            injection Hts as Ht0 _; subst t; lra. }
        rewrite progressiveBonus_above by (simpl; auto; lia).
        destruct ts as [|u0 [|u1 [|u2 [|]]]]; try discriminate Hl.
        simpl. ring.
      * split; [exact Hts|].
        unfold SalaryRelative.tierConfig. rewrite dynamic_rates. exact Hrs.
      * simpl. lia.
      * discriminate.
  - intros events type.
    destruct (fixed_run_invariant parseFloat events Fixed.initialApp
                fixed_invariant_initial type) as (Hth & Hlen & Hall).
    destruct (valid_rates_finite _ Hall) as (rs & Hrs & _).
    rewrite Hrs, length_map in Hlen.
    destruct rs as [|r0 [|r1 [|r2 [|]]]]; try discriminate Hlen.
    set (c := Fixed.tierConfig (Fixed.run parseFloat Fixed.initialApp events)) in *.
    assert (Hts : exists t0 t1 t2 : Q,
               thresholds (lookup Fixed.INITIAL_TIER_CONFIG type) = map Fin [t0; t1; t2]
               /\ 0 < t0 /\ t0 < t1 /\ t1 < t2).
    { destruct type; simpl.
      - exists 120000, 200000, 400000. repeat split; reflexivity.
      - exists 360000, 600000, 1200000. repeat split; reflexivity. }
    destruct Hts as (t0 & t1 & t2 & Hinit & H0 & H1 & H2).
    exists t0, t1, t2, r0, r1, r2. cbn zeta.
    split; [rewrite Hth; exact Hinit|]. split; [exact Hth|]. split; [exact Hrs|].
    intros p Hp.
    rewrite (calculateProgressiveBonus_finite c type [t0; t1; t2] [r0; r1; r2]).
    + cbn [number_eq].
      rewrite progressiveBonus_above.
      * simpl. ring.
      * simpl. lia.
      * lra.
      * repeat constructor; lra.
    + split; [rewrite Hth; exact Hinit|exact Hrs].
    + simpl. lia.
    + discriminate.
Qed.

(* ================================================================== *)
(** * Scheme comparison *)
(* ================================================================== *)








(** The three example tabs (150000, 210000 and 410000 in each month) show
    the banner of equal totals. *)
Lemma example_tabs (StringToNumber : string -> number) (t : Fixed.tab) :
  t <> Fixed.Custom ->
  option_map text
    (Fixed.recommendation
       (Fixed.shown StringToNumber (Fixed.setActiveTab t Fixed.initialApp)))
  = Some SameResult.
Proof.
  destruct t; intros H; try congruence; vm_compute; reflexivity.
Qed.

(** On the example tabs the two totals are equal on binary64 too.  That is
    a fact of these three inputs: the totals are two different computations
    and their roundings can differ, as for three months of 150003 on the
    same tables and of 100003 on the tables of the default salary, where
    the quarterly total comes out above the monthly one by a rounding
    error. *)
Lemma totals_on_binary64 :
  Binary64.totals 150000 150000 150000 Binary64.INITIAL_TIER_CONFIG
  = (15300, 15300)%float
  /\ Binary64.totals 210000 210000 210000 Binary64.INITIAL_TIER_CONFIG
     = (25800, 25800)%float
  /\ Binary64.totals 410000 410000 410000 Binary64.INITIAL_TIER_CONFIG
     = (85800, 85800)%float
  /\ Binary64.totals 150003 150003 150003 Binary64.INITIAL_TIER_CONFIG
     = (15300.449999999999, 15300.450000000001)%float
  /\ Binary64.totals 100003 100003 100003
       (Binary64.dynamicTierConfig 40000 Binary64.INITIAL_RATES)
     = (9000.2699999999986, 9000.2700000000004)%float.
Proof. repeat split; vm_compute; reflexivity. Qed.

(** The custom tab with nothing typed shows no result; a malformed field
    beside a number is computed, the malformed field counting for zero. *)
Lemma custom_tab_examples :
  Fixed.shown integerToNumber (Fixed.setActiveTab Fixed.Custom Fixed.initialApp) = None
  /\ option_map text
       (Fixed.recommendation
          (Fixed.shown integerToNumber
             (Fixed.run integerParseFloat Fixed.initialApp
                [Fixed.SelectTab Fixed.Custom;
                 Fixed.PerfInput 0 "450000"; Fixed.PerfInput 1 "x"])))
     = Some (ChooseMonthly (Fin (Qabs (15300.0000 - 32600.00000000)))).
Proof. split; vm_compute; reflexivity. Qed.

(** ** Reachable configurations are usable

    so that the comparison above applies to whatever the user has typed. *)

Lemma fixed_invariant_usable (c : config) : fixed_invariant c -> usable c.
Proof.
  intros Hc.
  assert (H : forall type, usable_tier (lookup c type)).
  { intros type. destruct (Hc type) as (Hth & Hlen & Hall).
    destruct (valid_rates_finite _ Hall) as (rs & Hrs & _).
    rewrite Hrs, length_map in Hlen.
    destruct type.
    - exists [120000; 200000; 400000], rs.
      split; [split; [rewrite Hth; reflexivity|exact Hrs]|].
      split; [simpl; lia|]. intros ->. discriminate Hlen.
    - exists [360000; 600000; 1200000], rs.
      split; [split; [rewrite Hth; reflexivity|exact Hrs]|].
      split; [simpl; lia|]. intros ->. discriminate Hlen. }
  split; [apply (H Monthly)|apply (H Quarterly)].
Qed.

Lemma fixed_reachable_usable (parseFloat : string -> number)
    (events : list Fixed.event) :
  usable (Fixed.tierConfig (Fixed.run parseFloat Fixed.initialApp events)).
Proof.
  apply fixed_invariant_usable, fixed_run_invariant, fixed_invariant_initial.
Qed.

Lemma salary_reachable_usable (StringToNumber parseFloat : string -> number)
    (events : list SalaryRelative.event) :
  usable (SalaryRelative.tierConfig StringToNumber
            (SalaryRelative.run parseFloat SalaryRelative.initialApp events)).
Proof.
  set (a := SalaryRelative.run parseFloat SalaryRelative.initialApp events).
  pose proof (salary_run_invariant parseFloat events SalaryRelative.initialApp
                rates_invariant_initial) as Hinv.
  fold a in Hinv.
  destruct (NumberOrZero_finite StringToNumber (SalaryRelative.monthlySalary a))
    as [s Hs].
  destruct (dynamic_thresholds StringToNumber (SalaryRelative.monthlySalary a)
              (SalaryRelative.tierRates a) s Hs) as [Hm Hq].
  assert (H : forall type,
             usable_tier (lookup (SalaryRelative.tierConfig StringToNumber a) type)).
  { intros type. destruct (Hinv type) as [Hlen Hall].
    destruct (valid_rates_finite _ Hall) as (rs & Hrs & _).
    rewrite Hrs, length_map in Hlen.
    unfold SalaryRelative.tierConfig.
    destruct type.
    - exists [3 * s; 5 * s; 10 * s], rs.
      split; [split; [exact Hm|rewrite dynamic_rates; exact Hrs]|].
      split; [simpl; lia|]. intros ->. discriminate Hlen.
    - exists [3 * s * 3; 5 * s * 3; 10 * s * 3], rs.
      split; [split; [exact Hq|rewrite dynamic_rates; exact Hrs]|].
      split; [simpl; lia|]. intros ->. discriminate Hlen. }
  split; [apply (H Monthly)|apply (H Quarterly)].
Qed.

(* ================================================================== *)
(** * Further properties of the calculator *)
(* ================================================================== *)

(** ** A performance that is not a number *)

Lemma tierLoop_NaN (n : nat) :
  forall (i : nat) (thresholds rates : array) (lb : number),
    bonus (tierLoop n i thresholds rates
             {| bonus := NaN; remainingPerf := NaN; lowerBound := lb |}) = NaN
    /\ remainingPerf (tierLoop n i thresholds rates
             {| bonus := NaN; remainingPerf := NaN; lowerBound := lb |}) = NaN.
Proof.
  induction n as [|n IH]; intros i thresholds rates lb; [split; reflexivity|].
  cbn [tierLoop remainingPerf bonus lowerBound number_leb Math_min
       number_add number_sub]. apply IH.
Qed.

(** X2: the calculator does not test its argument: given [NaN] it returns
    [NaN] as soon as the table has a threshold, and 0 when the table has
    none (the loop does not run and [NaN > 0] is false). *)
Theorem NaN_performance (config : config) (type : scheme) :
  (thresholds (lookup config type) <> [] ->
   calculateProgressiveBonus NaN type config = NaN)
  /\ (thresholds (lookup config type) = [] ->
      calculateProgressiveBonus NaN type config = Fin 0).
Proof.
  unfold calculateProgressiveBonus. split.
  - destruct (thresholds (lookup config type)) as [|t ts]; [congruence|].
    intros _. cbn [List.length tierLoop remainingPerf bonus lowerBound
                   number_leb Math_min number_add number_sub number_mul].
    destruct (tierLoop_NaN (List.length ts) 1 (t :: ts)
                (rates (lookup config type)) (array_get (t :: ts) 0)) as [Hb Hr].
    rewrite Hr, Hb. reflexivity.
  - intros ->. reflexivity.
Qed.

(* ================================================================== *)
(** * Local storage *)
(* ================================================================== *)

Import Persistence.

Lemma getItem_store_same (st : storage) (key item : string) :
  getItem (store st key item) key = Some item.
Proof. unfold getItem, store. rewrite String.eqb_refl. reflexivity. Qed.

Lemma getItem_store_other (st : storage) (key other item : string) :
  other <> key -> getItem (store st key item) other = getItem st other.
Proof.
  intros H. unfold getItem, store.
  destruct (String.eqb other key) eqn:E; [|reflexivity].
  apply String.eqb_eq in E. contradiction.
Qed.

Lemma getItem_removeItem_same (st : storage) (key : string) :
  getItem (removeItem st key) key = None.
Proof. unfold getItem, removeItem. rewrite String.eqb_refl. reflexivity. Qed.

Lemma getItem_removeItem_other (st : storage) (key other : string) :
  other <> key -> getItem (removeItem st key) other = getItem st other.
Proof.
  intros H. unfold getItem, removeItem.
  destruct (String.eqb other key) eqn:E; [|reflexivity].
  apply String.eqb_eq in E. contradiction.
Qed.

(** What [setValue] returns: the value to store, and the store written or
    left alone. *)
Lemma setValue_cases {T : Type} (accepts : storage -> string -> string -> bool)
    (stringify : T -> string) (key : string) (value : update T)
    (storedValue : T) (st : storage) :
  let v := match value with
           | Function f => f storedValue
           | Value v => v
           end in
  fst (setValue accepts stringify key value storedValue st) = v
  /\ snd (setValue accepts stringify key value storedValue st)
     = if accepts st key (stringify v) then store st key (stringify v) else st.
Proof.
  cbn zeta. unfold setValue, setItem.
  destruct (accepts st key _); split; reflexivity.
Qed.

(** X6: [useLocalStorage] reads back what it wrote.  After [setValue], if the
    write was accepted, the text written is not empty and [JSON.parse]
    inverts [JSON.stringify] on the value, a reload of the hook under the
    same key starts from the value just set, whatever its default; the
    hooks under other keys start as they would have before.  If the write
    was refused, the state has changed all the same and the store is as it
    was. *)
Theorem useLocalStorage_reads_back {T : Type}
    (accepts : storage -> string -> string -> bool)
    (parse : string -> option T) (stringify : T -> string)
    (key : string) (value : update T) (storedValue initialValue : T) (st : storage) :
  parse (stringify (fst (setValue accepts stringify key value storedValue st)))
  = Some (fst (setValue accepts stringify key value storedValue st)) ->
  stringify (fst (setValue accepts stringify key value storedValue st)) <> ""%string ->
  (accepts st key
     (stringify (fst (setValue accepts stringify key value storedValue st))) = true ->
   initialState parse (snd (setValue accepts stringify key value storedValue st))
     key initialValue
   = fst (setValue accepts stringify key value storedValue st)
   /\ forall (U : Type) (parse' : string -> option U) (other : string) (initial' : U),
        other <> key ->
        initialState parse' (snd (setValue accepts stringify key value storedValue st))
          other initial'
        = initialState parse' st other initial')
  /\ (accepts st key
        (stringify (fst (setValue accepts stringify key value storedValue st))) = false ->
      snd (setValue accepts stringify key value storedValue st) = st).
Proof.
  destruct (setValue_cases accepts stringify key value storedValue st) as [Hv Hst].
  cbn zeta in Hv, Hst. rewrite Hv. rewrite Hst.
  set (v := match value with Function f => f storedValue | Value v => v end).
  intros Hparse Hne. split.
  - intros Hacc. rewrite Hacc. split.
    + unfold initialState. rewrite getItem_store_same.
      destruct (String.eqb (stringify v) "") eqn:E.
      * apply String.eqb_eq in E. contradiction.
      * rewrite Hparse. reflexivity.
    + intros U parse' other initial' Hother.
      unfold initialState. rewrite getItem_store_other by exact Hother. reflexivity.
  - intros Hacc. rewrite Hacc. reflexivity.
Qed.

Lemma useLocalStorage_reads_back_witness :
  initialState sampleParseSalary
    (snd (setValue (fun _ _ _ => true) sampleStringifySalary KEY_SALARY
            (Value (VString "52000")) (VNumber 40000) emptyStorage))
    KEY_SALARY (VNumber 40000)
  = VString "52000".
Proof.
  destruct (useLocalStorage_reads_back (fun _ _ _ => true)
              sampleParseSalary sampleStringifySalary KEY_SALARY
              (Value (VString "52000")) (VNumber 40000) (VNumber 40000) emptyStorage
              eq_refl) as [H _].
  - discriminate.
  - apply H. reflexivity.
Defined.

Section PersistenceFacts.

Variable accepts : storage -> string -> string -> bool.
Variable parseSalary : string -> option value.
Variable stringifySalary : value -> string.
Variable parseRates : string -> option (by_scheme array).
Variable stringifyRates : by_scheme array -> string.
Variable parsePerf : string -> option perf.
Variable stringifyPerf : perf -> string.
Variable parseFloat : string -> number.

Local Abbreviation step' :=
  (step accepts parseSalary stringifySalary parseRates stringifyRates
     parsePerf stringifyPerf parseFloat).
Local Abbreviation run' :=
  (run accepts parseSalary stringifySalary parseRates stringifyRates
     parsePerf stringifyPerf parseFloat).
Local Abbreviation mount' := (mount parseSalary parseRates parsePerf).

(** ** The handlers: what they do to the three values, to the dialog and to
    the store *)

Lemma handleSalaryChange_effect (newSalary : string) (s : session) :
  app (handleSalaryChange accepts stringifySalary newSalary s)
  = SalaryRelative.handleSalaryChange newSalary (app s)
  /\ isResetModalOpen (handleSalaryChange accepts stringifySalary newSalary s)
     = isResetModalOpen s
  /\ local (handleSalaryChange accepts stringifySalary newSalary s)
     = (if accepts (local s) KEY_SALARY (stringifySalary (VString newSalary))
        then store (local s) KEY_SALARY (stringifySalary (VString newSalary))
        else local s).
Proof.
  unfold handleSalaryChange, setMonthlySalary, setValue, setItem.
  destruct (accepts _ _ _); repeat split; reflexivity.
Qed.

Lemma handleRateChange_effect (type : scheme) (index : nat) (newRate : number)
    (s : session) :
  app (handleRateChange accepts stringifyRates type index newRate s)
  = SalaryRelative.setTierRates
      (SalaryRelative.handleRateChange type index newRate) (app s)
  /\ isResetModalOpen (handleRateChange accepts stringifyRates type index newRate s)
     = isResetModalOpen s
  /\ local (handleRateChange accepts stringifyRates type index newRate s)
     = (if accepts (local s) KEY_RATES
             (stringifyRates
                (SalaryRelative.handleRateChange type index newRate
                   (SalaryRelative.tierRates (app s))))
        then store (local s) KEY_RATES
               (stringifyRates
                  (SalaryRelative.handleRateChange type index newRate
                     (SalaryRelative.tierRates (app s))))
        else local s).
Proof.
  unfold handleRateChange, setTierRates, setValue, setItem.
  destruct (accepts _ _ _); repeat split; reflexivity.
Qed.

Lemma handlePerfChange_effect (field : SalaryRelative.perfField) (value : string)
    (s : session) :
  app (handlePerfChange accepts stringifyPerf field value s)
  = SalaryRelative.setPerfData
      (SalaryRelative.handlePerfChange field value) (app s)
  /\ isResetModalOpen (handlePerfChange accepts stringifyPerf field value s)
     = isResetModalOpen s
  /\ local (handlePerfChange accepts stringifyPerf field value s)
     = (if accepts (local s) KEY_PERF
             (stringifyPerf
                (SalaryRelative.handlePerfChange field value
                   (SalaryRelative.perfData (app s))))
        then store (local s) KEY_PERF
               (stringifyPerf
                  (SalaryRelative.handlePerfChange field value
                     (SalaryRelative.perfData (app s))))
        else local s).
Proof.
  unfold handlePerfChange, setPerfData, setValue, setItem.
  destruct (accepts _ _ _); repeat split; reflexivity.
Qed.

(** A rate input, by cases on what [parseFloat] reads. *)
Lemma rate_input_effect (type : scheme) (index : nat) (value : string) (s : session) :
  (exists q, parseFloat value = Fin q /\ 0 <= q
     /\ SalaryRelative.handleInputChange parseFloat
          (handleRateChange accepts stringifyRates) type index value s
        = handleRateChange accepts stringifyRates type index (Fin (q / 100)) s
     /\ SalaryRelative.handleInputChange parseFloat
          (fun t i r => SalaryRelative.setTierRates
                          (SalaryRelative.handleRateChange t i r))
          type index value (app s)
        = SalaryRelative.setTierRates
            (SalaryRelative.handleRateChange type index (Fin (q / 100))) (app s))
  \/ (SalaryRelative.handleInputChange parseFloat
        (handleRateChange accepts stringifyRates) type index value s = s
      /\ SalaryRelative.handleInputChange parseFloat
           (fun t i r => SalaryRelative.setTierRates
                           (SalaryRelative.handleRateChange t i r))
           type index value (app s)
         = app s).
Proof.
  destruct (handleInputChange_cases_salary parseFloat
              (handleRateChange accepts stringifyRates) type index value s)
    as (Hok & HNaN & Hneg).
  destruct (handleInputChange_cases_salary parseFloat
              (fun t i r => SalaryRelative.setTierRates
                              (SalaryRelative.handleRateChange t i r))
              type index value (app s))
    as (Hok' & HNaN' & Hneg').
  destruct (parseFloat value) as [|q] eqn:E.
  - right. split; [apply HNaN|apply HNaN']; reflexivity.
  - destruct (Qlt_le_dec q 0) as [Hq|Hq].
    + right. split; [apply (Hneg q)|apply (Hneg' q)]; auto.
    + left. exists q. split; [reflexivity|]. split; [exact Hq|].
      split; [apply (Hok q)|apply (Hok' q)]; auto.
Qed.

(** Every event but a confirmed reset acts on the three values as the
    state machine without the store does, and never opens or closes the
    dialog unless it is one of the dialog's. *)
Lemma step_app (s : session) (e : event) :
  e <> ConfirmReset ->
  app (step' s e) = fold_left (SalaryRelative.step parseFloat) (forget e) (app s).
Proof.
  intros He. destruct e as [value|type row value|field value| | |]; simpl.
  - apply handleSalaryChange_effect.
  - destruct (nth_error _ row) as [r|]; [|reflexivity].
    destruct (rate_input_effect type (SalaryRelative.index r) value s)
      as [(q & _ & _ & H1 & H2)|[H1 H2]]; rewrite H1, H2; [|reflexivity].
    apply handleRateChange_effect.
  - apply handlePerfChange_effect.
  - reflexivity.
  - destruct (isResetModalOpen s); reflexivity.
  - congruence.
Qed.

(** X7: the three values do not depend on the store.  Whatever the store
    accepts or refuses and whatever it held, as long as no reset is
    confirmed the salary, the rates and the performances after a sequence
    of events are those of the state machine without the store. *)
Theorem state_survives_refused_writes (events : list event) :
  forall s : session,
    ~ In ConfirmReset events ->
    app (run' s events)
    = SalaryRelative.run parseFloat (app s) (flat_map forget events).
Proof.
  unfold run, SalaryRelative.run.
  induction events as [|e events IH]; intros s Hno; [reflexivity|].
  cbn [fold_left flat_map]. rewrite fold_left_app.
  rewrite IH by (intros H; apply Hno; right; exact H).
  rewrite step_app by (intros ->; apply Hno; left; reflexivity).
  reflexivity.
Qed.

End PersistenceFacts.

Lemma state_survives_refused_writes_witness :
  app (run (fun _ _ _ => false) sampleParseSalary sampleStringifySalary
         (fun _ => None) (fun _ => "r"%string) (fun _ => None) (fun _ => "p"%string)
         integerParseFloat
         (mount sampleParseSalary (fun _ => None) (fun _ => None) emptyStorage)
         [SalaryInput "52000"; RateInput Monthly 3 "20"; OpenReset; CancelReset])
  = SalaryRelative.run integerParseFloat SalaryRelative.initialApp
      [SalaryRelative.SalaryInput "52000"; SalaryRelative.RateInput Monthly 3 "20"].
Proof.
  apply (state_survives_refused_writes (fun _ _ _ => false)
           sampleParseSalary sampleStringifySalary
           (fun _ => None) (fun _ => "r"%string) (fun _ => None) (fun _ => "p"%string)
           integerParseFloat
           [SalaryInput "52000"; RateInput Monthly 3 "20"; OpenReset; CancelReset]).
  simpl. intros [H|[H|[H|[H|H]]]]; try discriminate H; exact H.
Defined.

Section ResetAndReload.

Variable accepts : storage -> string -> string -> bool.
Variable parseSalary : string -> option value.
Variable stringifySalary : value -> string.
Variable parseRates : string -> option (by_scheme array).
Variable stringifyRates : by_scheme array -> string.
Variable parsePerf : string -> option perf.
Variable stringifyPerf : perf -> string.
Variable parseFloat : string -> number.

Local Abbreviation step' :=
  (step accepts parseSalary stringifySalary parseRates stringifyRates
     parsePerf stringifyPerf parseFloat).
Local Abbreviation run' :=
  (run accepts parseSalary stringifySalary parseRates stringifyRates
     parsePerf stringifyPerf parseFloat).
Local Abbreviation mount' := (mount parseSalary parseRates parsePerf).
Local Abbreviation mirrors' := (mirrors stringifySalary stringifyRates stringifyPerf).

Lemma mount_fresh (st : storage) :
  fresh st -> app (mount' st) = SalaryRelative.initialApp.
Proof.
  intros (H1 & H2 & H3). unfold mount, initialState. simpl.
  rewrite H1, H2, H3. reflexivity.
Qed.

Lemma cleaned_fresh (st : storage) :
  fresh (removeItem (removeItem (removeItem st KEY_SALARY) KEY_RATES) KEY_PERF).
Proof. repeat split. Qed.

(** X8: the reset.  Opening the dialog and confirming brings the page back
    to the defaults from any state and any store: default salary, rates and
    performances, dialog closed, the program's three keys absent and every
    other key of the store untouched.  Opening the dialog and cancelling
    changes neither the values nor the store.  Without the dialog open
    there is no confirm button: the event does nothing. *)
Theorem reset_restores_defaults (s : session) :
  (app (run' s [OpenReset; ConfirmReset]) = SalaryRelative.initialApp
   /\ isResetModalOpen (run' s [OpenReset; ConfirmReset]) = false
   /\ fresh (local (run' s [OpenReset; ConfirmReset]))
   /\ forall key : string,
        key <> KEY_SALARY -> key <> KEY_RATES -> key <> KEY_PERF ->
        getItem (local (run' s [OpenReset; ConfirmReset])) key
        = getItem (local s) key)
  /\ (app (run' s [OpenReset; CancelReset]) = app s
      /\ local (run' s [OpenReset; CancelReset]) = local s
      /\ isResetModalOpen (run' s [OpenReset; CancelReset]) = false)
  /\ (isResetModalOpen s = false -> step' s ConfirmReset = s).
Proof.
  split; [|split].
  - assert (E : run' s [OpenReset; ConfirmReset]
                = mount' (removeItem (removeItem (removeItem (local s) KEY_SALARY)
                                        KEY_RATES) KEY_PERF)) by reflexivity.
    rewrite E.
    split; [apply mount_fresh, cleaned_fresh|].
    split; [reflexivity|]. split; [apply cleaned_fresh|].
    intros key H1 H2 H3.
    change (local (mount' ?st)) with st.
    rewrite !getItem_removeItem_other by assumption. reflexivity.
  - repeat split.
  - intros H. simpl. rewrite H. reflexivity.
Qed.

(** No event but a confirmed reset removes a key. *)
Lemma step_keeps_items (s : session) (e : event) (key : string) :
  (e = ConfirmReset -> isResetModalOpen s = false) ->
  getItem (local s) key <> None ->
  getItem (local (step' s e)) key <> None.
Proof.
  assert (Hstore : forall st k i, getItem st key <> None ->
                                  getItem (store st k i) key <> None).
  { intros st k i H. unfold getItem, store in *.
    destruct (String.eqb key k); [discriminate|exact H]. }
  intros Hconfirm Hkey.
  destruct e as [value|type row value|field value| | |]; simpl.
  - destruct (handleSalaryChange_effect accepts stringifySalary value s)
      as (_ & _ & ->).
    destruct (accepts _ _ _); [apply Hstore|]; exact Hkey.
  - destruct (nth_error _ row) as [r|]; [|exact Hkey].
    destruct (rate_input_effect accepts stringifyRates parseFloat
                type (SalaryRelative.index r) value s)
      as [(q & _ & _ & -> & _)|[-> _]]; [|exact Hkey].
    destruct (handleRateChange_effect accepts stringifyRates
                type (SalaryRelative.index r) (Fin (q / 100)) s) as (_ & _ & ->).
    destruct (accepts _ _ _); [apply Hstore|]; exact Hkey.
  - destruct (handlePerfChange_effect accepts stringifyPerf field value s)
      as (_ & _ & ->).
    destruct (accepts _ _ _); [apply Hstore|]; exact Hkey.
  - exact Hkey.
  - destruct (isResetModalOpen s); exact Hkey.
  - rewrite (Hconfirm eq_refl). exact Hkey.
Qed.

Lemma step_dialog_closed (s : session) (e : event) :
  e <> OpenReset -> isResetModalOpen s = false ->
  isResetModalOpen (step' s e) = false.
Proof.
  intros He Hs. destruct e as [value|type row value|field value| | |]; simpl.
  - destruct (handleSalaryChange_effect accepts stringifySalary value s)
      as (_ & -> & _). exact Hs.
  - destruct (nth_error _ row) as [r|]; [|exact Hs].
    destruct (rate_input_effect accepts stringifyRates parseFloat
                type (SalaryRelative.index r) value s)
      as [(q & _ & _ & -> & _)|[-> _]]; [|exact Hs].
    destruct (handleRateChange_effect accepts stringifyRates
                type (SalaryRelative.index r) (Fin (q / 100)) s) as (_ & -> & _).
    exact Hs.
  - destruct (handlePerfChange_effect accepts stringifyPerf field value s)
      as (_ & -> & _). exact Hs.
  - congruence.
  - rewrite Hs. exact Hs.
  - rewrite Hs. exact Hs.
Qed.

(** X9: nothing is cleared without the dialog.  From a state with the
    dialog closed, a sequence of events that never opens it removes no key
    from the store: whatever was stored under a key is still stored (as it
    was, or overwritten by a later value), and the dialog is still
    closed. *)
Theorem nothing_cleared_without_dialog (events : list event) :
  forall (s : session) (key : string),
    isResetModalOpen s = false ->
    ~ In OpenReset events ->
    getItem (local s) key <> None ->
    getItem (local (run' s events)) key <> None
    /\ isResetModalOpen (run' s events) = false.
Proof.
  unfold run.
  induction events as [|e events IH]; intros s key Hclosed Hno Hkey;
    [split; assumption|].
  cbn [fold_left]. apply IH.
  - apply step_dialog_closed; [|exact Hclosed].
    intros ->. apply Hno. left. reflexivity.
  - intros H. apply Hno. right. exact H.
  - apply step_keeps_items; [|exact Hkey]. intros _. exact Hclosed.
Qed.

End ResetAndReload.

Lemma nothing_cleared_without_dialog_witness :
  getItem
    (local
       (run (fun _ _ _ => true) sampleParseSalary sampleStringifySalary
          (fun _ => None) (fun _ => "r"%string) (fun _ => None) (fun _ => "p"%string)
          integerParseFloat
          (mount sampleParseSalary (fun _ => None) (fun _ => None)
             (store emptyStorage KEY_RATES "r"))
          [ConfirmReset; SalaryInput "1"; CancelReset]))
    KEY_RATES <> None.
Proof.
  apply (nothing_cleared_without_dialog (fun _ _ _ => true)
           sampleParseSalary sampleStringifySalary
           (fun _ => None) (fun _ => "r"%string) (fun _ => None) (fun _ => "p"%string)
           integerParseFloat
           [ConfirmReset; SalaryInput "1"; CancelReset]).
  - reflexivity.
  - simpl. intros [H|[H|[H|H]]]; try discriminate H; exact H.
  - discriminate.
Defined.

Section Reload.

Variable accepts : storage -> string -> string -> bool.
Variable parseSalary : string -> option value.
Variable stringifySalary : value -> string.
Variable parseRates : string -> option (by_scheme array).
Variable stringifyRates : by_scheme array -> string.
Variable parsePerf : string -> option perf.
Variable stringifyPerf : perf -> string.
Variable parseFloat : string -> number.

Local Abbreviation step' :=
  (step accepts parseSalary stringifySalary parseRates stringifyRates
     parsePerf stringifyPerf parseFloat).
Local Abbreviation run' :=
  (run accepts parseSalary stringifySalary parseRates stringifyRates
     parsePerf stringifyPerf parseFloat).
Local Abbreviation mount' := (mount parseSalary parseRates parsePerf).
Local Abbreviation mirrors' := (mirrors stringifySalary stringifyRates stringifyPerf).

Hypothesis accepted : forall st key item, accepts st key item = true.

Lemma in_step_store_same {T : Type} (stringify : T -> string)
    (st : storage) (key : string) (default current : T) :
  in_step stringify (store st key (stringify current)) key default current.
Proof. right. apply getItem_store_same. Qed.

Lemma in_step_store_other {T : Type} (stringify : T -> string)
    (st : storage) (key other item : string) (default current : T) :
  other <> key ->
  in_step stringify st other default current ->
  in_step stringify (store st key item) other default current.
Proof.
  intros Hk [[H1 H2]|H]; [left|right];
    rewrite getItem_store_other by exact Hk; auto.
Qed.

Lemma mount_mirrors (st : storage) : fresh st -> mirrors' (mount' st).
Proof.
  intros Hf. pose proof (mount_fresh parseSalary parseRates parsePerf st Hf) as E.
  destruct Hf as (H1 & H2 & H3).
  unfold mirrors. rewrite E. change (local (mount' st)) with st.
  repeat split; left; split; auto.
Qed.

Lemma step_mirrors (s : session) (e : event) : mirrors' s -> mirrors' (step' s e).
Proof.
  intros (Hs & Hr & Hp).
  destruct e as [value|type row value|field value| | |]; simpl.
  - destruct (handleSalaryChange_effect accepts stringifySalary value s)
      as (Ha & _ & Hl).
    rewrite accepted in Hl. unfold mirrors. rewrite Ha, Hl.
    split; [apply in_step_store_same|].
    split; apply in_step_store_other; try discriminate; assumption.
  - destruct (nth_error _ row) as [r|]; [|repeat split; assumption].
    destruct (rate_input_effect accepts stringifyRates parseFloat
                type (SalaryRelative.index r) value s)
      as [(q & _ & _ & -> & _)|[-> _]]; [|repeat split; assumption].
    destruct (handleRateChange_effect accepts stringifyRates
                type (SalaryRelative.index r) (Fin (q / 100)) s) as (Ha & _ & Hl).
    rewrite accepted in Hl. unfold mirrors. rewrite Ha, Hl.
    split; [apply in_step_store_other; [discriminate|exact Hs]|].
    split; [apply in_step_store_same|].
    apply in_step_store_other; [discriminate|exact Hp].
  - destruct (handlePerfChange_effect accepts stringifyPerf field value s)
      as (Ha & _ & Hl).
    rewrite accepted in Hl. unfold mirrors. rewrite Ha, Hl.
    split; [apply in_step_store_other; [discriminate|exact Hs]|].
    split; [apply in_step_store_other; [discriminate|exact Hr]|].
    apply in_step_store_same.
  - repeat split; assumption.
  - destruct (isResetModalOpen s); repeat split; assumption.
  - destruct (isResetModalOpen s); [|repeat split; assumption].
    apply mount_mirrors, cleaned_fresh.
Qed.

Lemma run_mirrors (events : list event) :
  forall s : session, mirrors' s -> mirrors' (run' s events).
Proof.
  unfold run. induction events as [|e events IH]; intros s Hs; [exact Hs|].
  cbn [fold_left]. apply IH, step_mirrors, Hs.
Qed.

Lemma initialState_in_step {T : Type} (parse : string -> option T)
    (stringify : T -> string) (st : storage) (key : string) (default current : T) :
  in_step stringify st key default current ->
  parse (stringify current) = Some current ->
  stringify current <> ""%string ->
  initialState parse st key default = current.
Proof.
  intros [[H1 H2]|H] Hparse Hne; unfold initialState.
  - rewrite H1. symmetry. exact H2.
  - rewrite H. destruct (String.eqb (stringify current) "") eqn:E.
    + apply String.eqb_eq in E. contradiction.
    + rewrite Hparse. reflexivity.
Qed.

(** X10: a reload reproduces the state.  When the store accepts every write
    and the session started with none of the program's keys stored, then
    after any sequence of events each key is in step with its value
    (absent with the value at its default, or holding the value's text);
    so if [JSON.parse] inverts [JSON.stringify] on the three current values
    and their texts are not empty, reloading the page gives back the same
    salary, rates and performances, hence the same bonus figures. *)
Theorem reload_reproduces_state (st0 : storage) (events : list event) :
  fresh st0 ->
  mirrors' (run' (mount' st0) events)
  /\ (parseSalary (stringifySalary
                     (SalaryRelative.monthlySalary (app (run' (mount' st0) events))))
      = Some (SalaryRelative.monthlySalary (app (run' (mount' st0) events))) ->
      stringifySalary (SalaryRelative.monthlySalary (app (run' (mount' st0) events)))
      <> ""%string ->
      parseRates (stringifyRates
                    (SalaryRelative.tierRates (app (run' (mount' st0) events))))
      = Some (SalaryRelative.tierRates (app (run' (mount' st0) events))) ->
      stringifyRates (SalaryRelative.tierRates (app (run' (mount' st0) events)))
      <> ""%string ->
      parsePerf (stringifyPerf
                   (SalaryRelative.perfData (app (run' (mount' st0) events))))
      = Some (SalaryRelative.perfData (app (run' (mount' st0) events))) ->
      stringifyPerf (SalaryRelative.perfData (app (run' (mount' st0) events)))
      <> ""%string ->
      app (mount' (local (run' (mount' st0) events)))
      = app (run' (mount' st0) events)).
Proof.
  intros Hf.
  pose proof (run_mirrors events (mount' st0) (mount_mirrors st0 Hf)) as Hm.
  split; [exact Hm|].
  set (s := run' (mount' st0) events) in *.
  destruct Hm as (Hs & Hr & Hp).
  intros P1 N1 P2 N2 P3 N3.
  unfold mount. cbn [app].
  rewrite (initialState_in_step parseSalary stringifySalary _ _ _ _ Hs P1 N1).
  rewrite (initialState_in_step parseRates stringifyRates _ _ _ _ Hr P2 N2).
  rewrite (initialState_in_step parsePerf stringifyPerf _ _ _ _ Hp P3 N3).
  destruct (app s). reflexivity.
Qed.

End Reload.

Lemma reload_reproduces_state_witness :
  app (mount sampleParseSalary
         (fun _ => Some SalaryRelative.INITIAL_RATES)
         (fun _ => Some SalaryRelative.INITIAL_PERF_DATA)
         (local
            (run (fun _ _ _ => true) sampleParseSalary sampleStringifySalary
               (fun _ => Some SalaryRelative.INITIAL_RATES) (fun _ => "r"%string)
               (fun _ => Some SalaryRelative.INITIAL_PERF_DATA) (fun _ => "p"%string)
               integerParseFloat
               (mount sampleParseSalary
                  (fun _ => Some SalaryRelative.INITIAL_RATES)
                  (fun _ => Some SalaryRelative.INITIAL_PERF_DATA) emptyStorage)
               [SalaryInput "52000"; RateInput Monthly 0 "-1"])))
  = app (run (fun _ _ _ => true) sampleParseSalary sampleStringifySalary
           (fun _ => Some SalaryRelative.INITIAL_RATES) (fun _ => "r"%string)
           (fun _ => Some SalaryRelative.INITIAL_PERF_DATA) (fun _ => "p"%string)
           integerParseFloat
           (mount sampleParseSalary
              (fun _ => Some SalaryRelative.INITIAL_RATES)
              (fun _ => Some SalaryRelative.INITIAL_PERF_DATA) emptyStorage)
           [SalaryInput "52000"; RateInput Monthly 0 "-1"]).
Proof.
  destruct (reload_reproduces_state (fun _ _ _ => true)
              sampleParseSalary sampleStringifySalary
              (fun _ => Some SalaryRelative.INITIAL_RATES) (fun _ => "r"%string)
              (fun _ => Some SalaryRelative.INITIAL_PERF_DATA) (fun _ => "p"%string)
              integerParseFloat (fun _ _ _ => eq_refl)
              emptyStorage [SalaryInput "52000"; RateInput Monthly 0 "-1"])
    as [_ H].
  - repeat split.
  - apply H; try reflexivity; discriminate.
Defined.

(* ================================================================== *)
(** * The tabs of the fixed-threshold variant *)
(* ================================================================== *)


